(** * BLS2 operator dashboard: the client-side reconciliation core

    A shallow embedding of the React front end (App.js, SystemControls,
    Dashboard.js, AppointmentSlots.js, SystemLogs.js).

    Each component is a record of its [useState] cells.  A handler is a
    function from the state to the next state and the list of effects it
    performs, in order.  An [async] handler is cut at its [await]: the part
    that runs at the call, and the part that runs when the request settles
    (named [..._settled]).  The [World] of a component holds its state,
    its props and the requests it is waiting for ([pending]); an answer
    can arrive at any later time, and answers in any order.  A [World] is
    one mounted instance of the component. *)

From Stdlib Require Import List String Ascii ZArith Bool Lia DecimalString.
Import ListNotations.

Local Open Scope string_scope.
Local Open Scope list_scope.
Local Open Scope Z_scope.

(** ** Data model *)

Module SystemStatus.
Record t := Build {
  status : string;
  last_check : option string;
  total_checks : Z;
  slots_found : Z;
  successful_bookings : Z;
  error_count : Z;
  uptime_minutes : Z
}.
End SystemStatus.

Module LogEntry.
Record t := Build {
  level : string;
  step : option string;
  message : string;
  timestamp : string;
  details : option string
}.
End LogEntry.

Module Slot.
Record t := Build {
  id : string;
  status : string;
  visa_type : string;
  visa_category : string;
  location : string;
  appointment_date : string;
  appointment_time : string;
  found_at : string;
  available_slots : Z;
  booking_details : option string
}.
End Slot.

(** ** The REST boundary (axios) *)

Module Axios.

(** A response: its HTTP status and its body. *)
Record Response (A : Type) := mkResponse {
  status : Z;
  data : A
}.
Arguments mkResponse {A}.
Arguments status {A}.
Arguments data {A}.

(** The body of an error response; [detail] is the server's message. *)
Record ErrorData := mkErrorData {
  detail : option string
}.

(** What the promise rejects with.  [response] is absent when the request
    never got an answer (connection refused, timeout); [message] is the
    text axios builds itself, such as "Network Error". *)
Record Error := mkError {
  message : string;
  response : option (Response (option ErrorData))
}.

(** axios fulfils the promise on a 2xx status and rejects it otherwise. *)
Inductive Settled (A : Type) :=
| Fulfilled (r : Response A)
| Rejected (error : Error).
Arguments Fulfilled {A}.
Arguments Rejected {A}.

(** [error.response?.data?.detail] *)
Definition response_data_detail (error : Error) : option string :=
  match response error with
  | Some r => match data r with
              | Some d => detail d
              | None => None
              end
  | None => None
  end.

(** [error.response?.data?.detail || error.message]: the empty string is
    falsy, so an empty detail gives the message too. *)
Definition detail_or_message (error : Error) : string :=
  match response_data_detail error with
  | Some d => if String.eqb d "" then message error else d
  | None => message error
  end.

End Axios.

Inductive Request :=
| GetSystemStatus
| PostSystemStart (check_interval_minutes : Z)
| PostSystemStop
| PostTestCheckOnce
| GetLogs (limit : Z) (level : option string)
| GetAppointmentsAvailable (limit : option Z)
| PostAppointmentsBook (slot_id : string) (confirm_booking : bool).

(** What a handler does to the outside, in the order it does it.
    [OnStatusUpdate] is the call of the [onStatusUpdate] prop. *)
Inductive Effect :=
| Http (request : Request)
| Alert (text : string)
| ConsoleLog (text : string)
| ConsoleError (text : string)
| OnStatusUpdate
| ScrollTop.

(** The requests among the effects. *)
Fixpoint requests (fxs : list Effect) : list Request :=
  match fxs with
  | [] => []
  | Http r :: rest => r :: requests rest
  | _ :: rest => requests rest
  end.

(** ** The push channel *)

Module Ws.

(** A parsed message [{type, data}]. *)
Inductive Message :=
| Log (data : LogEntry.t)
| SlotsFound (data : string)
| SystemStatus (data : SystemStatus.t)
| Unknown (type : string).

(** What [event.data] holds: text on which [JSON.parse] throws, or a
    message. *)
Inductive Frame :=
| Unparsable
| Json (message : Message).

End Ws.

(** Number to text, as a template literal prints an integer. *)
Definition show_Z (n : Z) : string := NilEmpty.string_of_int (Z.to_int n).

Definition nl : string := String (ascii_of_nat 10) "".

(** ** App.js: the status store *)

Module App.

Record State := mkState {
  systemStatus : SystemStatus.t;
  websocket : bool;
  isConnected : bool
}.

Definition initial : State :=
  {| systemStatus :=
       {| SystemStatus.status := "stopped";
          SystemStatus.last_check := None;
          SystemStatus.total_checks := 0;
          SystemStatus.slots_found := 0;
          SystemStatus.successful_bookings := 0;
          SystemStatus.error_count := 0;
          SystemStatus.uptime_minutes := 0 |};
     websocket := false;
     isConnected := false |}.

Definition setSystemStatus (v : SystemStatus.t) (st : State) : State :=
  {| systemStatus := v; websocket := websocket st; isConnected := isConnected st |}.

Definition setWebsocket (v : bool) (st : State) : State :=
  {| systemStatus := systemStatus st; websocket := v; isConnected := isConnected st |}.

Definition setIsConnected (v : bool) (st : State) : State :=
  {| systemStatus := systemStatus st; websocket := websocket st; isConnected := v |}.

(** [fetchSystemStatus], up to its [await]. *)
Definition fetchSystemStatus (st : State) : State * list Effect :=
  (st, [Http GetSystemStatus]).

(** [fetchSystemStatus], from the [await] on. *)
Definition fetchSystemStatus_settled (st : State)
  (r : Axios.Settled SystemStatus.t) : State * list Effect :=
  match r with
  | Axios.Fulfilled response => (setSystemStatus (Axios.data response) st, [])
  | Axios.Rejected _ => (st, [ConsoleError "Failed to fetch system status:"])
  end.

Definition handleWebSocketMessage (st : State) (message : Ws.Message)
  : State * list Effect :=
  match message with
  | Ws.Log _ => (st, [ConsoleLog "New log:"])
  | Ws.SlotsFound _ =>
      let (st', fx) := fetchSystemStatus st in
      (st', ConsoleLog "New slots found:" :: fx)
  | Ws.SystemStatus data => (setSystemStatus data st, [])
  | Ws.Unknown _ => (st, [ConsoleLog "Unknown message type:"])
  end.

Definition onopen (st : State) : State * list Effect :=
  (setWebsocket true (setIsConnected true st), [ConsoleLog "WebSocket connected"]).

Definition onmessage (st : State) (frame : Ws.Frame) : State * list Effect :=
  match frame with
  | Ws.Json message => handleWebSocketMessage st message
  | Ws.Unparsable => (st, [ConsoleError "WebSocket message error:"])
  end.

Definition onclose (st : State) : State * list Effect :=
  (setWebsocket false (setIsConnected false st), [ConsoleLog "WebSocket disconnected"]).

Definition onerror (st : State) : State * list Effect :=
  (setIsConnected false st, [ConsoleError "WebSocket error:"]).

(** Everything that makes App run code: the socket callbacks, the
    30-second interval, a child calling [onStatusUpdate], and the answer
    to a status request. *)
Inductive Event :=
| WsOpen
| WsMessage (frame : Ws.Frame)
| WsClose
| WsError
| IntervalTick
| ChildStatusUpdate
| StatusSettled (r : Axios.Settled SystemStatus.t).

Record World := mkWorld {
  state : State;
  pending : nat
}.

(** After the two mount effects: the socket is being opened and the first
    status request is out. *)
Definition mounted : World := {| state := initial; pending := 1 |}.

Definition step (w : World) (e : Event) : World * list Effect :=
  let st := state w in
  let issue (r : State * list Effect) :=
    ({| state := fst r;
        pending := (pending w + List.length (requests (snd r)))%nat |}, snd r) in
  match e with
  | WsOpen => issue (onopen st)
  | WsMessage frame => issue (onmessage st frame)
  | WsClose => issue (onclose st)
  | WsError => issue (onerror st)
  | IntervalTick => issue (fetchSystemStatus st)
  | ChildStatusUpdate => issue (fetchSystemStatus st)
  | StatusSettled r =>
      match pending w with
      | O => (w, [])
      | S n =>
          let r' := fetchSystemStatus_settled st r in
          ({| state := fst r'; pending := n |}, snd r')
      end
  end.

Fixpoint run (w : World) (trace : list Event) : World * list Effect :=
  match trace with
  | [] => (w, [])
  | e :: rest =>
      let (w1, fx1) := step w e in
      let (w2, fx2) := run w1 rest in
      (w2, fx1 ++ fx2)
  end.

(** The status store of the specification: its two writers and its reader. *)
Definition applySnapshot (status : SystemStatus.t) (st : State) : State :=
  fst (fetchSystemStatus_settled st (Axios.Fulfilled (Axios.mkResponse 200 status))).

Definition applyPush (status : SystemStatus.t) (st : State) : State :=
  fst (onmessage st (Ws.Json (Ws.SystemStatus status))).

Definition current (st : State) : SystemStatus.t := systemStatus st.

Inductive Call :=
| Snapshot (status : SystemStatus.t)
| Push (status : SystemStatus.t).

Definition payload (c : Call) : SystemStatus.t :=
  match c with
  | Snapshot s => s
  | Push s => s
  end.

Definition apply (st : State) (c : Call) : State :=
  match c with
  | Snapshot s => applySnapshot s st
  | Push s => applyPush s st
  end.

Definition applyAll (st : State) (calls : list Call) : State :=
  fold_left apply calls st.

End App.

(** ** Strings as the components use them *)

Module Str.

(** [s.startsWith(t)] *)
Fixpoint startsWith (s t : string) : bool :=
  match t, s with
  | EmptyString, _ => true
  | String _ _, EmptyString => false
  | String b t', String a s' => Ascii.eqb a b && startsWith s' t'
  end.

(** [s.includes(t)]: [t] occurs in [s] at some position. *)
Fixpoint includes (s t : string) : bool :=
  startsWith s t ||
  match s with
  | EmptyString => false
  | String _ s' => includes s' t
  end.

(** A string in a condition: only the empty string is falsy. *)
Definition truthy (s : string) : bool := negb (String.eqb s "").

(** Lower case of the letters A to Z, the other characters as they are. *)
Definition asciiLowerChar (c : ascii) : ascii :=
  let n := nat_of_ascii c in
  if (Nat.leb 65 n && Nat.leb n 90)%bool then ascii_of_nat (n + 32) else c.

Fixpoint asciiToLowerCase (s : string) : string :=
  match s with
  | EmptyString => EmptyString
  | String c s' => String (asciiLowerChar c) (asciiToLowerCase s')
  end.

End Str.

(** ** SystemLogs.js: the log stream *)

Module SystemLogs.

Record State := mkState {
  logs : list LogEntry.t;
  isLoading : bool;
  selectedLevel : string;
  autoScroll : bool;
  searchTerm : string
}.

Definition initial : State :=
  {| logs := []; isLoading := false; selectedLevel := "all";
     autoScroll := true; searchTerm := "" |}.

Definition setLogs (v : list LogEntry.t) (st : State) : State :=
  {| logs := v; isLoading := isLoading st; selectedLevel := selectedLevel st;
     autoScroll := autoScroll st; searchTerm := searchTerm st |}.

Definition setIsLoading (v : bool) (st : State) : State :=
  {| logs := logs st; isLoading := v; selectedLevel := selectedLevel st;
     autoScroll := autoScroll st; searchTerm := searchTerm st |}.

Definition setSelectedLevel (v : string) (st : State) : State :=
  {| logs := logs st; isLoading := isLoading st; selectedLevel := v;
     autoScroll := autoScroll st; searchTerm := searchTerm st |}.

Definition setAutoScroll (v : bool) (st : State) : State :=
  {| logs := logs st; isLoading := isLoading st; selectedLevel := selectedLevel st;
     autoScroll := v; searchTerm := searchTerm st |}.

Definition setSearchTerm (v : string) (st : State) : State :=
  {| logs := logs st; isLoading := isLoading st; selectedLevel := selectedLevel st;
     autoScroll := autoScroll st; searchTerm := v |}.

(** The listener on the socket.  The update is the functional one,
    [setLogs(prevLogs => [message.data, ...prevLogs])]. *)
Definition handleMessage (st : State) (frame : Ws.Frame) : State * list Effect :=
  match frame with
  | Ws.Json (Ws.Log data) =>
      (setLogs (data :: logs st) st, if autoScroll st then [ScrollTop] else [])
  | Ws.Json _ => (st, [])
  | Ws.Unparsable => (st, [ConsoleError "WebSocket message error:"])
  end.

(** [fetchLogs], up to its [await]. *)
Definition fetchLogs (st : State) : State * list Effect :=
  let levelParam :=
    if negb (String.eqb (selectedLevel st) "all") then Some (selectedLevel st) else None in
  (setIsLoading true st, [Http (GetLogs 100 levelParam)]).

(** [fetchLogs], from the [await] on; the body of the answer is
    [{logs: [...]}]. *)
Definition fetchLogs_settled (st : State)
  (r : Axios.Settled (list LogEntry.t)) : State * list Effect :=
  match r with
  | Axios.Fulfilled response =>
      (setIsLoading false (setLogs (Axios.data response) st), [])
  | Axios.Rejected _ =>
      (setIsLoading false st, [ConsoleError "Failed to fetch logs:"])
  end.

(** [clearLogs]; [confirmed] is what [window.confirm] returned. *)
Definition clearLogs (st : State) (confirmed : bool) : State * list Effect :=
  if confirmed then (setLogs [] st, []) else (st, []).

Section Filter.

(** [String.prototype.toLowerCase], which the browser provides. *)
Variable toLowerCase : string -> string.

(** The predicate given to [logs.filter]. *)
Definition matchesSearch (term : string) (log : LogEntry.t) : bool :=
  Str.includes (toLowerCase (LogEntry.message log)) (toLowerCase term) ||
  match LogEntry.step log with
  | Some step => Str.truthy step && Str.includes (toLowerCase step) (toLowerCase term)
  | None => false
  end.

Definition filteredLogs (st : State) : list LogEntry.t :=
  filter (matchesSearch (searchTerm st)) (logs st).

End Filter.

(** The count shown beside a level in the filter menu. *)
Definition levelCount (st : State) (value : string) : nat :=
  if String.eqb value "all" then List.length (logs st)
  else List.length (filter (fun l => String.eqb (LogEntry.level l) value) (logs st)).

Inductive Event :=
| SocketMessage (frame : Ws.Frame)
| SelectLevel (value : string)
| ChangeSearch (value : string)
| ChangeAutoScroll (checked : bool)
| ClickRefresh
| ClickClearView (confirmed : bool)
| LogsSettled (r : Axios.Settled (list LogEntry.t)).

(** [websocket] is the prop: the listener exists only while it is set. *)
Record World := mkWorld {
  state : State;
  websocket : bool;
  pending : nat
}.

(** After the mount effect, which calls [fetchLogs]. *)
Definition mounted (websocket : bool) : World :=
  {| state := fst (fetchLogs initial); websocket := websocket; pending := 1 |}.

Definition step (w : World) (e : Event) : World * list Effect :=
  let st := state w in
  let issue (r : State * list Effect) :=
    ({| state := fst r; websocket := websocket w;
        pending := (pending w + List.length (requests (snd r)))%nat |}, snd r) in
  match e with
  | SocketMessage frame =>
      if websocket w then issue (handleMessage st frame) else (w, [])
  | SelectLevel value =>
      if String.eqb value (selectedLevel st) then (w, [])
      else issue (fetchLogs (setSelectedLevel value st))
  | ChangeSearch value => issue (setSearchTerm value st, [])
  | ChangeAutoScroll checked => issue (setAutoScroll checked st, [])
  | ClickRefresh =>
      if isLoading st then (w, []) else issue (fetchLogs st)
  | ClickClearView confirmed => issue (clearLogs st confirmed)
  | LogsSettled r =>
      match pending w with
      | O => (w, [])
      | S n =>
          let r' := fetchLogs_settled st r in
          ({| state := fst r'; websocket := websocket w; pending := n |}, snd r')
      end
  end.

(** The log stream of the specification. *)
Definition appendLive (entry : LogEntry.t) (st : State) : State :=
  fst (handleMessage st (Ws.Json (Ws.Log entry))).

Definition loadPage (page : list LogEntry.t) (st : State) : State :=
  fst (fetchLogs_settled st (Axios.Fulfilled (Axios.mkResponse 200 page))).

Definition appendAll (entries : list LogEntry.t) (st : State) : State :=
  fold_left (fun s e => appendLive e s) entries st.

End SystemLogs.

(** ** SystemControls: start, stop, test check *)

Module SystemControls.

Record State := mkState {
  isLoading : bool;
  checkInterval : Z;
  showConfirmStop : bool
}.

Definition initial : State :=
  {| isLoading := false; checkInterval := 2; showConfirmStop := false |}.

Definition setIsLoading (v : bool) (st : State) : State :=
  {| isLoading := v; checkInterval := checkInterval st;
     showConfirmStop := showConfirmStop st |}.

Definition setCheckInterval (v : Z) (st : State) : State :=
  {| isLoading := isLoading st; checkInterval := v;
     showConfirmStop := showConfirmStop st |}.

Definition setShowConfirmStop (v : bool) (st : State) : State :=
  {| isLoading := isLoading st; checkInterval := checkInterval st;
     showConfirmStop := v |}.

(** The body of the answer to [POST /test/check-once]. *)
Record CheckOnce := mkCheckOnce {
  success : bool;
  slots_found : Z
}.

(** [startSystem], up to its [await]. *)
Definition startSystem (st : State) : State * list Effect :=
  (setIsLoading true st, [Http (PostSystemStart (checkInterval st))]).

(** [startSystem], from the [await] on. *)
Definition startSystem_settled (st : State) (r : Axios.Settled unit)
  : State * list Effect :=
  match r with
  | Axios.Fulfilled response =>
      if Axios.status response =? 200
      then (setIsLoading false st,
            [Alert "System started successfully! 🚀"; OnStatusUpdate])
      else (setIsLoading false st, [])
  | Axios.Rejected error =>
      (setIsLoading false st,
       [ConsoleError "Failed to start system:";
        Alert ("Failed to start system: " ++ Axios.detail_or_message error)])
  end.

(** [stopSystem], up to its [await]. *)
Definition stopSystem (st : State) : State * list Effect :=
  (setIsLoading true st, [Http PostSystemStop]).

(** [stopSystem], from the [await] on. *)
Definition stopSystem_settled (st : State) (r : Axios.Settled unit)
  : State * list Effect :=
  match r with
  | Axios.Fulfilled response =>
      if Axios.status response =? 200
      then (setIsLoading false (setShowConfirmStop false st),
            [Alert "System stopped successfully! 🛑"; OnStatusUpdate])
      else (setIsLoading false st, [])
  | Axios.Rejected error =>
      (setIsLoading false st,
       [ConsoleError "Failed to stop system:";
        Alert ("Failed to stop system: " ++ Axios.detail_or_message error)])
  end.

(** [runTestCheck], up to its [await]. *)
Definition runTestCheck (st : State) : State * list Effect :=
  (setIsLoading true st, [Http PostTestCheckOnce]).

(** [runTestCheck], from the [await] on. *)
Definition runTestCheck_settled (st : State) (r : Axios.Settled CheckOnce)
  : State * list Effect :=
  match r with
  | Axios.Fulfilled response =>
      if success (Axios.data response)
      then (setIsLoading false st,
            [Alert ("✅ Test completed successfully!" ++ nl ++ nl ++ "Results:" ++ nl
                    ++ "• Slots found: " ++ show_Z (slots_found (Axios.data response))
                    ++ nl ++ "• Check the Appointments tab for details.");
             OnStatusUpdate])
      else (setIsLoading false st,
            [Alert "❌ Test check failed. Please check the logs for more details."])
  | Axios.Rejected error =>
      (setIsLoading false st,
       [ConsoleError "Test check failed:";
        Alert ("❌ Test check failed: " ++ Axios.detail_or_message error)])
  end.

(** The buttons of the control panel. *)
Inductive Control :=
| StartSystemButton
| StopSystemButton
| YesStopButton
| CancelStopButton
| RunTestCheckButton.

Inductive Operation :=
| Start
| Stop
| Test.

Definition Operation_eqb (a b : Operation) : bool :=
  match a, b with
  | Start, Start | Stop, Stop | Test, Test => true
  | _, _ => false
  end.

Record World := mkWorld {
  state : State;
  systemStatus : SystemStatus.t;
  pending : list Operation
}.

Definition isSystemRunning (w : World) : bool :=
  String.eqb (SystemStatus.status (systemStatus w)) "running".

Definition isSystemStopped (w : World) : bool :=
  String.eqb (SystemStatus.status (systemStatus w)) "stopped".

(** Is the control in the rendered tree? *)
Definition rendered (w : World) (c : Control) : bool :=
  match c with
  | StartSystemButton => isSystemStopped w
  | StopSystemButton => isSystemRunning w && negb (showConfirmStop (state w))
  | YesStopButton => isSystemRunning w && showConfirmStop (state w)
  | CancelStopButton => isSystemRunning w && showConfirmStop (state w)
  | RunTestCheckButton => true
  end.

(** Its [disabled] attribute. *)
Definition disabled (w : World) (c : Control) : bool :=
  match c with
  | StartSystemButton => isLoading (state w)
  | StopSystemButton => false
  | YesStopButton => isLoading (state w)
  | CancelStopButton => false
  | RunTestCheckButton => isLoading (state w)
  end.

(** Its [onClick]. *)
Definition onClick (c : Control) (st : State) : State * list Effect :=
  match c with
  | StartSystemButton => startSystem st
  | StopSystemButton => (setShowConfirmStop true st, [])
  | YesStopButton => stopSystem st
  | CancelStopButton => (setShowConfirmStop false st, [])
  | RunTestCheckButton => runTestCheck st
  end.

(** The operation whose request a click sends. *)
Definition launches (c : Control) : list Operation :=
  match c with
  | StartSystemButton => [Start]
  | YesStopButton => [Stop]
  | RunTestCheckButton => [Test]
  | _ => []
  end.

Definition intervalOptions : list Z := [1; 2; 3; 5; 10].

Inductive Event :=
| Click (c : Control)
| ChangeInterval (value : Z)
| StatusProp (systemStatus : SystemStatus.t)
| StartSettled (r : Axios.Settled unit)
| StopSettled (r : Axios.Settled unit)
| TestSettled (r : Axios.Settled CheckOnce).

(** Take one waiting request of the operation off the list. *)
Fixpoint take (op : Operation) (l : list Operation) : option (list Operation) :=
  match l with
  | [] => None
  | x :: rest =>
      if Operation_eqb op x then Some rest
      else match take op rest with
           | Some rest' => Some (x :: rest')
           | None => None
           end
  end.

Definition settle (w : World) (op : Operation)
  (k : State -> State * list Effect) : World * list Effect :=
  match take op (pending w) with
  | None => (w, [])
  | Some rest =>
      ({| state := fst (k (state w)); systemStatus := systemStatus w;
          pending := rest |}, snd (k (state w)))
  end.

(** A click reaches [onClick] only on a button that is rendered and not
    disabled. *)
Definition step (w : World) (e : Event) : World * list Effect :=
  match e with
  | Click c =>
      if rendered w c && negb (disabled w c)
      then ({| state := fst (onClick c (state w)); systemStatus := systemStatus w;
               pending := pending w ++ launches c |}, snd (onClick c (state w)))
      else (w, [])
  | ChangeInterval value =>
      if isSystemStopped w && negb (isLoading (state w))
         && existsb (Z.eqb value) intervalOptions
      then ({| state := setCheckInterval value (state w);
               systemStatus := systemStatus w; pending := pending w |}, [])
      else (w, [])
  | StatusProp s =>
      ({| state := state w; systemStatus := s; pending := pending w |}, [])
  | StartSettled r => settle w Start (fun st => startSystem_settled st r)
  | StopSettled r => settle w Stop (fun st => stopSystem_settled st r)
  | TestSettled r => settle w Test (fun st => runTestCheck_settled st r)
  end.

Fixpoint run (w : World) (trace : list Event) : World * list Effect :=
  match trace with
  | [] => (w, [])
  | e :: rest =>
      let (w1, fx1) := step w e in
      let (w2, fx2) := run w1 rest in
      (w2, fx1 ++ fx2)
  end.

Definition mounted (systemStatus : SystemStatus.t) : World :=
  {| state := initial; systemStatus := systemStatus; pending := [] |}.

End SystemControls.

(** ** Dashboard.js: the test check of the welcome panel *)

Module Dashboard.

Record State := mkState {
  recentLogs : list LogEntry.t;
  availableSlots : list Slot.t;
  isLoading : bool
}.

Definition initial : State :=
  {| recentLogs := []; availableSlots := []; isLoading := false |}.

Definition setRecentLogs (v : list LogEntry.t) (st : State) : State :=
  {| recentLogs := v; availableSlots := availableSlots st; isLoading := isLoading st |}.

Definition setAvailableSlots (v : list Slot.t) (st : State) : State :=
  {| recentLogs := recentLogs st; availableSlots := v; isLoading := isLoading st |}.

Definition setIsLoading (v : bool) (st : State) : State :=
  {| recentLogs := recentLogs st; availableSlots := availableSlots st; isLoading := v |}.

(** A request the component waits for.  [fetchRecentData] runs either on
    its own (at mount) or awaited inside [runTestCheck]; [inTest] tells
    which, since the rest of [runTestCheck] runs after it. *)
Inductive Waiting :=
| ForLogs (inTest : bool)
| ForSlots (inTest : bool)
| ForTest.

Definition Waiting_eqb (a b : Waiting) : bool :=
  match a, b with
  | ForLogs x, ForLogs y => Bool.eqb x y
  | ForSlots x, ForSlots y => Bool.eqb x y
  | ForTest, ForTest => true
  | _, _ => false
  end.

(** The end of [runTestCheck] after [await fetchRecentData()]:
    [onStatusUpdate()], then the [finally]. *)
Definition afterRecentData (inTest : bool) (st : State) : State * list Effect :=
  if inTest then (setIsLoading false st, [OnStatusUpdate]) else (st, []).

(** [fetchRecentData], up to its first [await]. *)
Definition fetchRecentData (st : State) : State * list Effect :=
  (setIsLoading true st, [Http (GetLogs 10 None)]).

(** [fetchRecentData], from the first [await] to the second, or to its end
    when the first request failed. *)
Definition fetchRecentData_logs_settled (inTest : bool) (st : State)
  (r : Axios.Settled (list LogEntry.t)) : State * list Effect * list Waiting :=
  match r with
  | Axios.Fulfilled logsResponse =>
      (setRecentLogs (Axios.data logsResponse) st,
       [Http (GetAppointmentsAvailable (Some 5))], [ForSlots inTest])
  | Axios.Rejected _ =>
      let (st', fx) := afterRecentData inTest (setIsLoading false st) in
      (st', ConsoleError "Failed to fetch dashboard data:" :: fx, [])
  end.

(** [fetchRecentData], from the second [await] on. *)
Definition fetchRecentData_slots_settled (inTest : bool) (st : State)
  (r : Axios.Settled (list Slot.t)) : State * list Effect :=
  match r with
  | Axios.Fulfilled slotsResponse =>
      let (st', fx) :=
        afterRecentData inTest
          (setIsLoading false (setAvailableSlots (Axios.data slotsResponse) st)) in
      (st', fx)
  | Axios.Rejected _ =>
      let (st', fx) := afterRecentData inTest (setIsLoading false st) in
      (st', ConsoleError "Failed to fetch dashboard data:" :: fx)
  end.

(** [runTestCheck], up to its [await]. *)
Definition runTestCheck (st : State) : State * list Effect :=
  (setIsLoading true st, [Http PostTestCheckOnce]).

(** [runTestCheck], from the [await] to [await fetchRecentData()], or to
    its end. *)
Definition runTestCheck_settled (st : State)
  (r : Axios.Settled SystemControls.CheckOnce)
  : State * list Effect * list Waiting :=
  match r with
  | Axios.Fulfilled response =>
      if SystemControls.success (Axios.data response)
      then
        let (st', fx) := fetchRecentData st in
        (st',
         Alert ("Test completed! Found "
                ++ show_Z (SystemControls.slots_found (Axios.data response))
                ++ " slots.") :: fx,
         [ForLogs true])
      else (setIsLoading false st,
            [Alert "Test check failed. Check logs for details."], [])
  | Axios.Rejected error =>
      (setIsLoading false st,
       [ConsoleError "Test check failed:";
        Alert ("Test check failed: " ++ Axios.message error)], [])
  end.

Inductive Event :=
| ClickTestCheck
| LogsSettled (inTest : bool) (r : Axios.Settled (list LogEntry.t))
| SlotsSettled (inTest : bool) (r : Axios.Settled (list Slot.t))
| TestSettled (r : Axios.Settled SystemControls.CheckOnce).

Record World := mkWorld {
  state : State;
  pending : list Waiting
}.

Fixpoint take (k : Waiting) (l : list Waiting) : option (list Waiting) :=
  match l with
  | [] => None
  | x :: rest =>
      if Waiting_eqb k x then Some rest
      else match take k rest with
           | Some rest' => Some (x :: rest')
           | None => None
           end
  end.

Definition settle (w : World) (k : Waiting)
  (f : State -> State * list Effect * list Waiting) : World * list Effect :=
  match take k (pending w) with
  | None => (w, [])
  | Some rest =>
      let '(st', fx, more) := f (state w) in
      ({| state := st'; pending := rest ++ more |}, fx)
  end.

(** The Test Check button carries [disabled={isLoading}]. *)
Definition step (w : World) (e : Event) : World * list Effect :=
  match e with
  | ClickTestCheck =>
      if isLoading (state w) then (w, [])
      else ({| state := fst (runTestCheck (state w));
               pending := pending w ++ [ForTest] |}, snd (runTestCheck (state w)))
  | LogsSettled inTest r =>
      settle w (ForLogs inTest) (fun st => fetchRecentData_logs_settled inTest st r)
  | SlotsSettled inTest r =>
      settle w (ForSlots inTest)
        (fun st => (fetchRecentData_slots_settled inTest st r, []))
  | TestSettled r => settle w ForTest (fun st => runTestCheck_settled st r)
  end.

Fixpoint run (w : World) (trace : list Event) : World * list Effect :=
  match trace with
  | [] => (w, [])
  | e :: rest =>
      let (w1, fx1) := step w e in
      let (w2, fx2) := run w1 rest in
      (w2, fx1 ++ fx2)
  end.

(** After the mount effect, which calls [fetchRecentData]. *)
Definition mounted : World :=
  {| state := fst (fetchRecentData initial); pending := [ForLogs false] |}.

End Dashboard.

(** ** AppointmentSlots.js: the slot registry and the booking *)

Module AppointmentSlots.

Record State := mkState {
  slots : list Slot.t;
  isLoading : bool;
  selectedSlot : option Slot.t;
  showBookingModal : bool;
  bookingConfirmed : bool
}.

Definition initial : State :=
  {| slots := []; isLoading := false; selectedSlot := None;
     showBookingModal := false; bookingConfirmed := false |}.

Definition setSlots (v : list Slot.t) (st : State) : State :=
  {| slots := v; isLoading := isLoading st; selectedSlot := selectedSlot st;
     showBookingModal := showBookingModal st; bookingConfirmed := bookingConfirmed st |}.

Definition setIsLoading (v : bool) (st : State) : State :=
  {| slots := slots st; isLoading := v; selectedSlot := selectedSlot st;
     showBookingModal := showBookingModal st; bookingConfirmed := bookingConfirmed st |}.

Definition setSelectedSlot (v : option Slot.t) (st : State) : State :=
  {| slots := slots st; isLoading := isLoading st; selectedSlot := v;
     showBookingModal := showBookingModal st; bookingConfirmed := bookingConfirmed st |}.

Definition setShowBookingModal (v : bool) (st : State) : State :=
  {| slots := slots st; isLoading := isLoading st; selectedSlot := selectedSlot st;
     showBookingModal := v; bookingConfirmed := bookingConfirmed st |}.

Definition setBookingConfirmed (v : bool) (st : State) : State :=
  {| slots := slots st; isLoading := isLoading st; selectedSlot := selectedSlot st;
     showBookingModal := showBookingModal st; bookingConfirmed := v |}.

(** The body of the answer to [POST /appointments/book]. *)
Record Booked := mkBooked {
  confirmation_id : string
}.

(** [fetchSlots], up to its [await]. *)
Definition fetchSlots (st : State) : State * list Effect :=
  (setIsLoading true st, [Http (GetAppointmentsAvailable None)]).

(** [fetchSlots], from the [await] on; the body of the answer is
    [{slots: [...]}]. *)
Definition fetchSlots_settled (st : State) (r : Axios.Settled (list Slot.t))
  : State * list Effect :=
  match r with
  | Axios.Fulfilled response =>
      (setIsLoading false (setSlots (Axios.data response) st), [])
  | Axios.Rejected _ =>
      (setIsLoading false st, [ConsoleError "Failed to fetch slots:"])
  end.

Definition handleBookSlot (slot : Slot.t) (st : State) : State :=
  setBookingConfirmed false (setShowBookingModal true (setSelectedSlot (Some slot) st)).

(** [confirmBooking], up to its [await]; the first line is the guard
    [if (!selectedSlot || !bookingConfirmed) return]. *)
Definition confirmBooking (st : State) : State * list Effect :=
  match selectedSlot st with
  | None => (st, [])
  | Some slot =>
      if negb (bookingConfirmed st) then (st, [])
      else (setIsLoading true st, [Http (PostAppointmentsBook (Slot.id slot) true)])
  end.

(** [confirmBooking], from the [await] on.  On status 200 it calls
    [fetchSlots()] without awaiting it, so that request is out when the
    [finally] of [confirmBooking] clears [isLoading]. *)
Definition confirmBooking_settled (st : State) (r : Axios.Settled Booked)
  : State * list Effect :=
  match r with
  | Axios.Fulfilled response =>
      if Axios.status response =? 200
      then
        let (st', fx) := fetchSlots (setShowBookingModal false st) in
        (setIsLoading false st',
         Alert ("🎉 Appointment booked successfully!" ++ nl ++ nl
                ++ "Confirmation ID: " ++ confirmation_id (Axios.data response)
                ++ nl ++ nl ++ "Please check your email for details.")
           :: fx ++ [OnStatusUpdate])
      else (setIsLoading false st, [])
  | Axios.Rejected error =>
      (setIsLoading false st,
       [ConsoleError "Booking failed:";
        Alert ("❌ Booking failed: " ++ Axios.detail_or_message error)])
  end.

(** The controls of the page; a slot row is named by its index. *)
Inductive Control :=
| RefreshButton
| BookNowButton (index : nat)
| ConfirmBookingButton
| CancelButton.

Inductive Waiting :=
| ForSlots
| ForBooking.

Definition Waiting_eqb (a b : Waiting) : bool :=
  match a, b with
  | ForSlots, ForSlots | ForBooking, ForBooking => true
  | _, _ => false
  end.

Record World := mkWorld {
  state : State;
  pending : list Waiting
}.

(** The modal is in the tree under [showBookingModal && selectedSlot]. *)
Definition modalOpen (st : State) : bool :=
  showBookingModal st && match selectedSlot st with Some _ => true | None => false end.

(** The rows are drawn unless the list is empty; a row has its Book Now
    button when [slot.status === 'available']. *)
Definition rendered (st : State) (c : Control) : bool :=
  match c with
  | RefreshButton => true
  | BookNowButton index =>
      match nth_error (slots st) index with
      | Some slot => String.eqb (Slot.status slot) "available"
      | None => false
      end
  | ConfirmBookingButton => modalOpen st
  | CancelButton => modalOpen st
  end.

Definition disabled (st : State) (c : Control) : bool :=
  match c with
  | RefreshButton => isLoading st
  | BookNowButton _ => false
  | ConfirmBookingButton => negb (bookingConfirmed st) || isLoading st
  | CancelButton => false
  end.

Definition onClick (c : Control) (st : State) : State * list Effect :=
  match c with
  | RefreshButton => fetchSlots st
  | BookNowButton index =>
      match nth_error (slots st) index with
      | Some slot => (handleBookSlot slot st, [])
      | None => (st, [])
      end
  | ConfirmBookingButton => confirmBooking st
  | CancelButton => (setShowBookingModal false st, [])
  end.

Definition waitingFor (r : Request) : list Waiting :=
  match r with
  | GetAppointmentsAvailable _ => [ForSlots]
  | PostAppointmentsBook _ _ => [ForBooking]
  | _ => []
  end.

Inductive Event :=
| Click (c : Control)
| ChangeConfirmCheckbox (checked : bool)
| SlotsSettled (r : Axios.Settled (list Slot.t))
| BookingSettled (r : Axios.Settled Booked).

Fixpoint take (k : Waiting) (l : list Waiting) : option (list Waiting) :=
  match l with
  | [] => None
  | x :: rest =>
      if Waiting_eqb k x then Some rest
      else match take k rest with
           | Some rest' => Some (x :: rest')
           | None => None
           end
  end.

Definition issue (w : World) (r : State * list Effect) : World * list Effect :=
  ({| state := fst r;
      pending := pending w ++ flat_map waitingFor (requests (snd r)) |}, snd r).

Definition step (w : World) (e : Event) : World * list Effect :=
  let st := state w in
  match e with
  | Click c =>
      if rendered st c && negb (disabled st c) then issue w (onClick c st)
      else (w, [])
  | ChangeConfirmCheckbox checked =>
      if modalOpen st then issue w (setBookingConfirmed checked st, [])
      else (w, [])
  | SlotsSettled r =>
      match take ForSlots (pending w) with
      | None => (w, [])
      | Some rest => issue {| state := st; pending := rest |} (fetchSlots_settled st r)
      end
  | BookingSettled r =>
      match take ForBooking (pending w) with
      | None => (w, [])
      | Some rest =>
          issue {| state := st; pending := rest |} (confirmBooking_settled st r)
      end
  end.

Fixpoint run (w : World) (trace : list Event) : World * list Effect :=
  match trace with
  | [] => (w, [])
  | e :: rest =>
      let (w1, fx1) := step w e in
      let (w2, fx2) := run w1 rest in
      (w2, fx1 ++ fx2)
  end.

(** After the mount effect, which calls [fetchSlots]. *)
Definition mounted : World :=
  {| state := fst (fetchSlots initial); pending := [ForSlots] |}.

(** How many booking requests are out. *)
Definition bookingsInFlight (w : World) : nat :=
  List.length (filter (Waiting_eqb ForBooking) (pending w)).

End AppointmentSlots.

(** ** The client as a whole *)

Module Client.

(** The state cells of App and of the four pages.  React keeps the cells
    of a component to that component: a handler reaches those of its own
    component and nothing else. *)
Record t := mk {
  app : App.State;
  controls : SystemControls.State;
  dashboard : Dashboard.State;
  appointments : AppointmentSlots.State;
  systemLogs : SystemLogs.State
}.

(** The Clear View button of the log page. *)
Definition clearLogs (c : t) (confirmed : bool) : t * list Effect :=
  let (l, fx) := SystemLogs.clearLogs (systemLogs c) confirmed in
  ({| app := app c; controls := controls c; dashboard := dashboard c;
      appointments := appointments c; systemLogs := l |}, fx).

End Client.

(** ** Notions of the specification *)

(** [t] occurs in [s] as a substring. *)
Definition occursIn (t s : string) : Prop :=
  exists pre post : string, s = (pre ++ t ++ post)%string.

(** ** The lower-casing of the browser *)

Module Js.

Definition isAsciiChar (c : ascii) : bool := Nat.ltb (nat_of_ascii c) 128.

(** The text is written with the characters of ASCII alone. *)
Fixpoint isAscii (s : string) : bool :=
  match s with
  | EmptyString => true
  | String c s' => isAsciiChar c && isAscii s'
  end.

(** A letter A to Z or a to z. *)
Definition isCased (c : ascii) : bool :=
  let n := nat_of_ascii c in
  (Nat.leb 65 n && Nat.leb n 90) || (Nat.leb 97 n && Nat.leb n 122).

(** The characters of ASCII that the rule for the final sigma skips:
    apostrophe, full stop, colon, circumflex and grave accent. *)
Definition isCaseIgnorable (c : ascii) : bool :=
  let n := nat_of_ascii c in
  Nat.eqb n 39 || Nat.eqb n 46 || Nat.eqb n 58 || Nat.eqb n 94 || Nat.eqb n 96.

(** The two bytes of the capital sigma in UTF-8. *)
Definition xCE : ascii := ascii_of_nat 206.
Definition xA3 : ascii := ascii_of_nat 163.

Definition capitalSigma : string := String xCE (String xA3 EmptyString).
Definition smallSigma : string := "σ".
Definition finalSigma : string := "ς".

(** Does a cased letter follow, the skipped characters aside? *)
Fixpoint casedAhead (s : string) : bool :=
  match s with
  | EmptyString => false
  | String c s' =>
      if isCaseIgnorable c then casedAhead s'
      else isCased c || Str.startsWith s capitalSigma
  end.

(** [afterCased]: a cased letter stands before, the skipped characters
    aside. *)
Fixpoint lowerFrom (afterCased : bool) (s : string) : string :=
  match s with
  | EmptyString => EmptyString
  | String c s' =>
      match s' with
      | String d s'' =>
          if Ascii.eqb c xCE && Ascii.eqb d xA3
          then ((if afterCased && negb (casedAhead s'')
                 then finalSigma else smallSigma)
                ++ lowerFrom true s'')%string
          else String (Str.asciiLowerChar c)
                 (lowerFrom (if isCaseIgnorable c then afterCased else isCased c) s')
      | EmptyString => String (Str.asciiLowerChar c) EmptyString
      end
  end.

(** [String.prototype.toLowerCase] as ECMA-262 has it (the default case
    conversion of Unicode, with the Final_Sigma rule of its special
    casing), on text made of ASCII characters and the Greek capital
    sigma, held in UTF-8: the letters A to Z become a to z; a capital
    sigma becomes the final form when a cased letter stands before it and
    none follows, and the small sigma otherwise; the rest stays.  On other
    text the browser does more than this function. *)
Definition toLowerCase (s : string) : string := lowerFrom false s.

End Js.

(** What is known of the browser's lower-casing on ASCII text: it is the
    lower-casing of the letters A to Z. *)
Definition lowersAscii (toLowerCase : string -> string) : Prop :=
  forall s, Js.isAscii s = true -> toLowerCase s = Str.asciiToLowerCase s.

(** The letter in its other case; a character that is no letter A to Z
    or a to z, itself. *)
Definition otherCase (c : ascii) : ascii :=
  let n := nat_of_ascii c in
  if (Nat.leb 65 n && Nat.leb n 90)%bool then ascii_of_nat (n + 32)
  else if (Nat.leb 97 n && Nat.leb n 122)%bool then ascii_of_nat (n - 32)
  else c.

(** The same character, or the same letter in its other case. *)
Definition sameCharIgnoringCase (a b : ascii) : Prop :=
  a = b \/ b = otherCase a.

(** The same text, character by character, the case of letters ignored. *)
Inductive equalIgnoringCase : string -> string -> Prop :=
| equal_empty : equalIgnoringCase EmptyString EmptyString
| equal_char a b s t :
    sameCharIgnoringCase a b -> equalIgnoringCase s t ->
    equalIgnoringCase (String a s) (String b t).






(** At most one request of the control panel is out, and the flag is set
    while it is. *)
Definition controlsLocked (w : SystemControls.World) : Prop :=
  SystemControls.pending w = [] \/
  (SystemControls.isLoading (SystemControls.state w) = true /\
   exists op, SystemControls.pending w = [op]).

(** The same for the dashboard. *)
Definition dashboardLocked (w : Dashboard.World) : Prop :=
  Dashboard.pending w = [] \/
  (Dashboard.isLoading (Dashboard.state w) = true /\
   exists k, Dashboard.pending w = [k]).

(** Sample data for the examples. *)
Module Sample.

Definition log1 : LogEntry.t :=
  {| LogEntry.level := "info"; LogEntry.step := Some "STEP1_LOGIN";
     LogEntry.message := "Email submitted"; LogEntry.timestamp := "2025-01-01T10:00:00";
     LogEntry.details := None |}.

Definition log2 : LogEntry.t :=
  {| LogEntry.level := "error"; LogEntry.step := None;
     LogEntry.message := "Captcha failed"; LogEntry.timestamp := "2025-01-01T10:00:05";
     LogEntry.details := None |}.

Definition log3 : LogEntry.t :=
  {| LogEntry.level := "success"; LogEntry.step := Some "STEP3_CHECK";
     LogEntry.message := "No slots"; LogEntry.timestamp := "2025-01-01T10:00:09";
     LogEntry.details := None |}.

Definition slot1 : Slot.t :=
  {| Slot.id := "s1"; Slot.status := "available"; Slot.visa_type := "Tourist";
     Slot.visa_category := "General"; Slot.location := "Algiers";
     Slot.appointment_date := "2025-02-01"; Slot.appointment_time := "09:00";
     Slot.found_at := "2025-01-01T10:00:00"; Slot.available_slots := 1;
     Slot.booking_details := None |}.

Definition slot2 : Slot.t :=
  {| Slot.id := "s2"; Slot.status := "available"; Slot.visa_type := "Tourist";
     Slot.visa_category := "General"; Slot.location := "Oran";
     Slot.appointment_date := "2025-02-02"; Slot.appointment_time := "11:30";
     Slot.found_at := "2025-01-01T10:00:00"; Slot.available_slots := 2;
     Slot.booking_details := None |}.

Definition running : SystemStatus.t :=
  {| SystemStatus.status := "running"; SystemStatus.last_check := None;
     SystemStatus.total_checks := 4; SystemStatus.slots_found := 2;
     SystemStatus.successful_bookings := 0; SystemStatus.error_count := 0;
     SystemStatus.uptime_minutes := 8 |}.


(** A log page holding the three entries. *)
Definition searchSample : SystemLogs.State :=
  SystemLogs.setLogs [log1; log2; log3] SystemLogs.initial.

(** A 500 answer whose body carries the server's message. *)
Definition serverError : Axios.Error :=
  {| Axios.message := "Request failed with status code 500";
     Axios.response :=
       Some (Axios.mkResponse 500
               (Some {| Axios.detail := Some "OCR service unavailable" |})) |}.

(** No answer at all. *)
Definition networkError : Axios.Error :=
  {| Axios.message := "Network Error"; Axios.response := None |}.

Definition ok {A : Type} (body : A) : Axios.Settled A :=
  Axios.Fulfilled (Axios.mkResponse 200 body).

(** A booking is confirmed and answered with 200, which starts a refresh
    of the slots; before that refresh is answered the user books the
    second slot; then the refresh is answered. *)
Definition doubleBooking : list AppointmentSlots.Event :=
  [ AppointmentSlots.SlotsSettled (ok [slot1; slot2]);
    AppointmentSlots.Click (AppointmentSlots.BookNowButton 0);
    AppointmentSlots.ChangeConfirmCheckbox true;
    AppointmentSlots.Click AppointmentSlots.ConfirmBookingButton;
    AppointmentSlots.BookingSettled (ok {| AppointmentSlots.confirmation_id := "C-1" |});
    AppointmentSlots.Click (AppointmentSlots.BookNowButton 1);
    AppointmentSlots.ChangeConfirmCheckbox true;
    AppointmentSlots.Click AppointmentSlots.ConfirmBookingButton;
    AppointmentSlots.SlotsSettled (ok [slot1; slot2]) ].

End Sample.

(** ** App.js: the address of the push channel *)

Module Socket.

(** The rest of [s] from position [n] on. *)
Fixpoint skip (n : nat) (s : string) : string :=
  match n, s with
  | O, _ => s
  | S n', String _ s' => skip n' s'
  | S _, EmptyString => EmptyString
  end.

(** [s.replace(pattern, replacement)] for a string pattern: the first
    occurrence is replaced, the others stay.  The replacement is taken as
    it is written; the two used below hold no [$]. *)
Fixpoint replace (s pattern replacement : string) : string :=
  if Str.startsWith s pattern
  then (replacement ++ skip (String.length pattern) s)%string
  else match s with
       | EmptyString => EmptyString
       | String c s' => String c (replace s' pattern replacement)
       end.

(** [BACKEND_URL.replace('https://', 'wss://').replace('http://', 'ws://') + '/ws'] *)
Definition wsUrl (BACKEND_URL : string) : string :=
  (replace (replace BACKEND_URL "https://" "wss://") "http://" "ws://" ++ "/ws")%string.

End Socket.

(** ** Header: the status indicator *)

Module Header.

Definition getStatusColor (status : string) : string :=
  if String.eqb status "running" then "text-green-500"
  else if String.eqb status "paused" then "text-yellow-500"
  else if String.eqb status "error" then "text-red-500"
  else "text-gray-500".

Definition getStatusIcon (status : string) : string :=
  if String.eqb status "running" then "🟢"
  else if String.eqb status "paused" then "🟡"
  else if String.eqb status "error" then "🔴"
  else "⚪".

(** The text beside the connection dot. *)
Definition connectionLabel (st : App.State) : string :=
  if App.isConnected st then "Connected" else "Disconnected".

End Header.

(** * Properties *)

(** ** Status store *)

Section StatusStore.

Import App.

Lemma apply_replaces (st : State) (c : Call) :
  current (apply st c) = payload c.
Proof. destruct c; reflexivity. Qed.

(** A write keeps nothing of the status it replaces. *)
Lemma apply_forgets (st st' : State) (c : Call) :
  current (apply st c) = current (apply st' c).
Proof. now rewrite !apply_replaces. Qed.

Lemma applyAll_snoc (st : State) (calls : list Call) (c : Call) :
  applyAll st (calls ++ [c]) = apply (applyAll st calls) c.
Proof. unfold applyAll. now rewrite fold_left_app. Qed.

(** C1.  After any sequence of status writes, REST snapshots and pushed
    [system_status] events in any mix, the store holds the payload of the
    last write, whichever kind it was; with no write it holds what it held. *)
Theorem status_store_last_write_wins (st : State) (calls : list Call) :
  current (applyAll st calls) = last (map payload calls) (current st).
Proof.
  induction calls as [|c calls IH] using rev_ind.
  - reflexivity.
  - rewrite applyAll_snoc, apply_replaces, map_app. cbn [map].
    now rewrite last_last.
Qed.

(** The same at the level of the events of App: a step changes the status
    only by an answered status request or a [system_status] message, and
    then to the payload as it came. *)
Lemma App_step_status (w : World) (e : Event) :
  systemStatus (state (fst (step w e))) = systemStatus (state w) \/
  exists p,
    systemStatus (state (fst (step w e))) = p /\
    (e = WsMessage (Ws.Json (Ws.SystemStatus p)) \/
     exists code, e = StatusSettled (Axios.Fulfilled (Axios.mkResponse code p))).
Proof.
  destruct e as [| [|[]] | | | | |[[code p]|err]]; cbn; auto.
  - right. eexists; split; [reflexivity|]. now left.
  - destruct (pending w); cbn; auto.
    right. eexists; split; [reflexivity|]. right. now exists code.
  - destruct (pending w); cbn; auto.
Qed.

End StatusStore.

(** ** Log stream *)

Section LogStream.

Import SystemLogs.

Lemma appendAll_logs (entries : list LogEntry.t) (st : State) :
  logs (appendAll entries st) = rev entries ++ logs st.
Proof.
  unfold appendAll. revert st.
  induction entries as [|e entries IH]; intro st; cbn.
  - reflexivity.
  - rewrite IH. cbn. now rewrite <- app_assoc.
Qed.

(** C6.  Take any stream and append K entries live: all K are in it, in
    front of what it held.  Loading a page then leaves exactly the fetched
    sequence, so an entry is in the stream after the load only if the page
    has it. *)
Theorem loadPage_replaces_stream (st : State) (live page : list LogEntry.t) :
  logs (appendAll live st) = rev live ++ logs st /\
  logs (loadPage page (appendAll live st)) = page /\
  loadPage page (appendAll live st)
  = setIsLoading false (setLogs page (appendAll live st)).
Proof.
  split; [apply appendAll_logs|].
  split; reflexivity.
Qed.

(** C8.  A [log] push event puts its entry at the front of the stream and
    leaves the entries behind it as they were, asks the server nothing and
    touches no other cell; so after a run of such events the entries stand
    newest first, in the reverse of their order of arrival. *)
Theorem appendLive_prepends (st : State) (entry : LogEntry.t)
  (entries : list LogEntry.t) :
  logs (appendLive entry st) = entry :: logs st /\
  requests (snd (handleMessage st (Ws.Json (Ws.Log entry)))) = [] /\
  appendLive entry st = setLogs (entry :: logs st) st /\
  logs (appendAll entries st) = rev entries ++ logs st.
Proof.
  repeat split.
  - cbn. now destruct (autoScroll st).
  - apply appendAll_logs.
Qed.

(** Frames other than a [log] message leave the stream alone. *)
Lemma handleMessage_other (st : State) (frame : Ws.Frame) :
  (forall entry, frame <> Ws.Json (Ws.Log entry)) ->
  fst (handleMessage st frame) = st.
Proof.
  intros H. destruct frame as [|[]]; try reflexivity.
  now elim (H data).
Qed.

End LogStream.

(** ** Clear View *)

(** C10.  Clear View, once confirmed, empties the displayed log list and
    nothing else: no request goes out (no effect at all), the other cells
    of the log page keep their values, and so do the cells of App and of
    the other pages. *)
Theorem clearLogs_frame (c : Client.t) :
  let c' := fst (Client.clearLogs c true) in
  snd (Client.clearLogs c true) = [] /\
  SystemLogs.logs (Client.systemLogs c') = [] /\
  SystemLogs.isLoading (Client.systemLogs c') = SystemLogs.isLoading (Client.systemLogs c) /\
  SystemLogs.selectedLevel (Client.systemLogs c') = SystemLogs.selectedLevel (Client.systemLogs c) /\
  SystemLogs.autoScroll (Client.systemLogs c') = SystemLogs.autoScroll (Client.systemLogs c) /\
  SystemLogs.searchTerm (Client.systemLogs c') = SystemLogs.searchTerm (Client.systemLogs c) /\
  Client.app c' = Client.app c /\
  Client.controls c' = Client.controls c /\
  Client.dashboard c' = Client.dashboard c /\
  Client.appointments c' = Client.appointments c.
Proof. cbn. repeat split. Qed.

(** Declined, it does nothing. *)
Lemma clearLogs_declined (c : Client.t) :
  Client.clearLogs c false = (c, []).
Proof. now destruct c. Qed.

(** ** Text search *)

Section Substring.

Import Str.

Lemma startsWith_spec (t s : string) :
  startsWith s t = true <-> exists post, s = (t ++ post)%string.
Proof.
  revert s. induction t as [|b t IH]; intros s.
  - destruct s; cbn; split; intros; trivial; eauto.
  - destruct s as [|a s]; cbn [startsWith].
    + split; [discriminate | intros [post H]; discriminate].
    + rewrite andb_true_iff, Ascii.eqb_eq, IH. split.
      * intros [-> [post ->]]. now exists post.
      * intros [post H]. injection H as -> ->. split; eauto.
Qed.

Lemma startsWith_empty (s : string) : startsWith s "" = true.
Proof. now destruct s. Qed.

Lemma includes_spec (s t : string) :
  includes s t = true <-> occursIn t s.
Proof.
  unfold occursIn. induction s as [|a s IH]; cbn [includes].
  - rewrite orb_false_r, startsWith_spec. split.
    + intros [post H]. now exists "", post.
    + intros [pre [post H]]. destruct pre; [|discriminate].
      now exists post.
  - rewrite orb_true_iff, startsWith_spec, IH. split.
    + intros [[post H] | [pre [post H]]].
      * now exists "", post.
      * exists (String a pre), post. cbn. now rewrite H.
    + intros [pre [post H]]. destruct pre as [|a' pre]; cbn in H.
      * left. now exists post.
      * right. injection H as -> H. now exists pre, post.
Qed.

Lemma includes_empty (s : string) : includes s "" = true.
Proof. destruct s; cbn; trivial. Qed.



End Substring.

Section Search.

Import SystemLogs.

Lemma asciiToLowerCase_app (a b : string) :
  Str.asciiToLowerCase (a ++ b) =
  (Str.asciiToLowerCase a ++ Str.asciiToLowerCase b)%string.
Proof.
  induction a as [|c a IH]; cbn; trivial. now rewrite IH.
Qed.


Lemma asciiLowerChar_otherCase (c : ascii) :
  Str.asciiLowerChar (otherCase c) = Str.asciiLowerChar c.
Proof.
  destruct c as [[] [] [] [] [] [] [] []]; reflexivity.
Qed.

Lemma asciiLowerChar_cases (c : ascii) :
  Str.asciiLowerChar c = c \/
  (Str.asciiLowerChar c = otherCase c /\ otherCase (Str.asciiLowerChar c) = c).
Proof.
  destruct c as [[] [] [] [] [] [] [] []];
    first [left; reflexivity | right; split; reflexivity].
Qed.

(** Two characters are the same up to case exactly when they have the
    same lower case. *)
Lemma sameCharIgnoringCase_iff (a b : ascii) :
  sameCharIgnoringCase a b <-> Str.asciiLowerChar a = Str.asciiLowerChar b.
Proof.
  unfold sameCharIgnoringCase. split.
  - intros [-> | ->]; [reflexivity | now rewrite asciiLowerChar_otherCase].
  - intros E.
    destruct (asciiLowerChar_cases a) as [A | [A1 A2]],
             (asciiLowerChar_cases b) as [B | [B1 B2]].
    + left. congruence.
    + right. rewrite <- B2, <- E, A. reflexivity.
    + right. congruence.
    + left. congruence.
Qed.

Lemma equalIgnoringCase_iff (u t : string) :
  equalIgnoringCase u t <-> Str.asciiToLowerCase u = Str.asciiToLowerCase t.
Proof.
  split.
  - induction 1 as [|a b u t C _ IH]; cbn; trivial.
    apply sameCharIgnoringCase_iff in C. now rewrite C, IH.
  - revert t. induction u as [|a u IH]; intros [|b t] H; try discriminate.
    + constructor.
    + cbn in H. injection H as C H. constructor.
      * now apply sameCharIgnoringCase_iff.
      * now apply IH.
Qed.


Lemma isAscii_app (a b : string) :
  Js.isAscii (a ++ b) = Js.isAscii a && Js.isAscii b.
Proof.
  induction a as [|c a IH]; cbn; trivial. now rewrite IH, andb_assoc.
Qed.

Lemma isAsciiChar_not_xCE (c : ascii) :
  Js.isAsciiChar c = true -> Ascii.eqb c Js.xCE = false.
Proof.
  intros H. destruct (Ascii.eqb_spec c Js.xCE) as [->|]; trivial.
  discriminate H.
Qed.

(** On ASCII text the lower-casing of the browser, as modelled, is the
    lower-casing of the letters A to Z. *)
Lemma Js_toLowerCase_ascii : lowersAscii Js.toLowerCase.
Proof.
  unfold lowersAscii, Js.toLowerCase. generalize false.
  intros b s. revert b. induction s as [|c s IH]; intros b H; trivial.
  cbn [Js.isAscii] in H. apply andb_true_iff in H as [Hc Hs].
  cbn [Js.lowerFrom Str.asciiToLowerCase].
  destruct s as [|d s]; trivial.
  rewrite (isAsciiChar_not_xCE c Hc). cbn [andb].
  now rewrite IH.
Qed.

Variable toLowerCase : string -> string.
Hypothesis toLowerCase_ascii : lowersAscii toLowerCase.



End Search.





Example filteredLogs_with_browser_casing :
  SystemLogs.filteredLogs Js.toLowerCase
    (SystemLogs.setSearchTerm "captcha" Sample.searchSample) = [Sample.log2] /\
  Js.toLowerCase "Σ" = "σ" /\
  Js.toLowerCase "AΣ.B" = "aσ.b" /\
  Js.toLowerCase "AΣ. B" = "aς. b".
Proof. repeat split. Qed.

(** ** Booking *)

Section Booking.

Import AppointmentSlots.

Lemma requests_app (a b : list Effect) :
  requests (a ++ b) = requests a ++ requests b.
Proof.
  induction a as [|[] a IH]; cbn; trivial. now rewrite IH.
Qed.

(** What [confirmBooking] sends, it sends past its guard. *)
Lemma confirmBooking_requests (st : State) (r : Request) :
  In r (requests (snd (confirmBooking st))) ->
  bookingConfirmed st = true /\
  exists slot, selectedSlot st = Some slot /\
               r = PostAppointmentsBook (Slot.id slot) true.
Proof.
  unfold confirmBooking.
  destruct (selectedSlot st) as [slot|]; [|intros []].
  destruct (bookingConfirmed st); cbn; [|intros []].
  intros [<- | []]. eauto.
Qed.

(** No other handler of the page sends a booking. *)
Lemma step_books_only_confirmed (w : World) (e : Event) (id : string) (c : bool) :
  In (PostAppointmentsBook id c) (requests (snd (step w e))) ->
  e = Click ConfirmBookingButton /\ bookingConfirmed (state w) = true /\ c = true.
Proof.
  destruct e as [[| i | |] | checked | [resp|err] | [resp|err]]; cbn.
  - destruct (isLoading (state w)); cbn; [intros [] | intros [H|[]]; discriminate].
  - destruct (nth_error (slots (state w)) i) as [slot|]; cbn; [|intros []].
    destruct (String.eqb _ _); cbn; intros [].
  - destruct (modalOpen (state w) &&
              negb (negb (bookingConfirmed (state w)) || isLoading (state w)));
      cbn; [|intros []].
    intros H. apply confirmBooking_requests in H as [B [slot [_ E]]].
    injection E as _ ->. auto.
  - destruct (modalOpen (state w)); cbn; intros [].
  - destruct (modalOpen (state w)); cbn; intros [].
  - destruct (take ForSlots (pending w)); cbn; intros [].
  - destruct (take ForSlots (pending w)); cbn; intros [].
  - destruct (take ForBooking (pending w)); cbn; [|intros []].
    destruct (Axios.status resp =? 200); cbn; [|intros []].
    intros [H|[]]. discriminate.
  - destruct (take ForBooking (pending w)); cbn; intros [].
Qed.

End Booking.

(** C2.  With the confirmation flag false, or with no slot selected,
    [confirmBooking] returns at once: the state is as it was and nothing is
    sent.  And whichever event the page handles, a POST to
    /appointments/book goes out only from a state whose confirmation flag
    is true, and it carries [confirm_booking: true]. *)
Theorem confirmBooking_guard (st : AppointmentSlots.State) :
  (AppointmentSlots.bookingConfirmed st = false \/
   AppointmentSlots.selectedSlot st = None ->
   AppointmentSlots.confirmBooking st = (st, [])) /\
  (forall (w : AppointmentSlots.World) (e : AppointmentSlots.Event) id c,
     AppointmentSlots.state w = st ->
     In (PostAppointmentsBook id c) (requests (snd (AppointmentSlots.step w e))) ->
     AppointmentSlots.bookingConfirmed st = true /\ c = true).
Proof.
  split.
  - unfold AppointmentSlots.confirmBooking. intros [H | H]; rewrite H.
    + now destruct (AppointmentSlots.selectedSlot st).
    + reflexivity.
  - intros w e id c <- H.
    now apply step_books_only_confirmed in H.
Qed.

Lemma confirmBooking_guard_witness :
  AppointmentSlots.bookingConfirmed
    (AppointmentSlots.handleBookSlot Sample.slot1 AppointmentSlots.initial) = false /\
  AppointmentSlots.confirmBooking
    (AppointmentSlots.handleBookSlot Sample.slot1 AppointmentSlots.initial)
  = (AppointmentSlots.handleBookSlot Sample.slot1 AppointmentSlots.initial, []).
Proof.
  split; [reflexivity|].
  apply (proj1 (confirmBooking_guard
    (AppointmentSlots.handleBookSlot Sample.slot1 AppointmentSlots.initial))).
  left. reflexivity.
Defined.

(** C4.  When the booking request is rejected, the handler leaves the
    cached slots as they are (the slot in question keeps the status it
    had) and asks for nothing; and the only event of the page that changes
    the cached slots at all is an answered GET /appointments/available,
    which replaces them by the list in the answer. *)
Theorem booking_failure_keeps_slots
  (st : AppointmentSlots.State) (error : Axios.Error) :
  let r := AppointmentSlots.confirmBooking_settled st (Axios.Rejected error) in
  AppointmentSlots.slots (fst r) = AppointmentSlots.slots st /\
  requests (snd r) = [] /\
  (forall (w : AppointmentSlots.World) (e : AppointmentSlots.Event),
     let w' := fst (AppointmentSlots.step w e) in
     AppointmentSlots.slots (AppointmentSlots.state w')
       <> AppointmentSlots.slots (AppointmentSlots.state w) ->
     exists response,
       e = AppointmentSlots.SlotsSettled (Axios.Fulfilled response) /\
       AppointmentSlots.slots (AppointmentSlots.state w') = Axios.data response).
Proof.
  cbn. repeat split.
  intros w e.
  destruct e as [[| i | |] | checked | [resp|err] | [resp|err]]; cbn.
  - destruct (AppointmentSlots.isLoading _); cbn; congruence.
  - destruct (nth_error _ i) as [slot|]; cbn; [|congruence].
    destruct (String.eqb _ _); cbn; congruence.
  - destruct (AppointmentSlots.modalOpen _ && _); cbn; [|congruence].
    unfold AppointmentSlots.confirmBooking.
    destruct (AppointmentSlots.selectedSlot _); [|cbn; congruence].
    destruct (AppointmentSlots.bookingConfirmed _); cbn; congruence.
  - destruct (AppointmentSlots.modalOpen _); cbn; congruence.
  - destruct (AppointmentSlots.modalOpen _); cbn; congruence.
  - destruct (AppointmentSlots.take _ _); cbn; [|congruence].
    intros _. now exists resp.
  - destruct (AppointmentSlots.take _ _); cbn; congruence.
  - destruct (AppointmentSlots.take _ _); cbn; [|congruence].
    destruct (Axios.status resp =? 200); cbn; congruence.
  - destruct (AppointmentSlots.take _ _); cbn; congruence.
Qed.

Lemma booking_failure_keeps_slots_witness :
  AppointmentSlots.slots (AppointmentSlots.state (fst
    (AppointmentSlots.step AppointmentSlots.mounted
       (AppointmentSlots.SlotsSettled (Sample.ok [Sample.slot2])))))
    <> AppointmentSlots.slots (AppointmentSlots.state AppointmentSlots.mounted) /\
  exists response,
    AppointmentSlots.SlotsSettled (Sample.ok [Sample.slot2])
    = AppointmentSlots.SlotsSettled (Axios.Fulfilled response) /\
    AppointmentSlots.slots (AppointmentSlots.state (fst
      (AppointmentSlots.step AppointmentSlots.mounted
         (AppointmentSlots.SlotsSettled (Sample.ok [Sample.slot2])))))
    = Axios.data response.
Proof.
  split; [vm_compute; discriminate|].
  apply (proj2 (proj2 (booking_failure_keeps_slots
                         AppointmentSlots.initial Sample.networkError))
           AppointmentSlots.mounted
           (AppointmentSlots.SlotsSettled (Sample.ok [Sample.slot2]))).
  vm_compute; discriminate.
Defined.

(** ** Stop *)

Section StopConfirmation.

Import SystemControls.

Lemma settle_showConfirmStop (w : World) (op : Operation)
  (k : State -> State * list Effect) :
  (forall st, showConfirmStop (fst (k st)) = true -> showConfirmStop st = true) ->
  showConfirmStop (state (fst (settle w op k))) = true ->
  showConfirmStop (state w) = true.
Proof.
  intros K. unfold settle. destruct (take op (pending w)); cbn; auto.
Qed.

(** The confirmation is raised by the Stop System button and by nothing
    else. *)
Lemma step_showConfirmStop (w : World) (e : Event) :
  showConfirmStop (state (fst (step w e))) = true ->
  showConfirmStop (state w) = true \/ e = Click StopSystemButton.
Proof.
  destruct e as [c | v | s | r | r | r]; cbn [step].
  - destruct (rendered w c && negb (disabled w c)); cbn; auto.
    destruct c; cbn; auto; discriminate.
  - destruct (_ && _); cbn; auto.
  - cbn; auto.
  - intros H. left. revert H. apply settle_showConfirmStop.
    intros st. destruct r as [resp|err]; cbn; auto.
    destruct (Axios.status resp =? 200); cbn; auto.
  - intros H. left. revert H. apply settle_showConfirmStop.
    intros st. destruct r as [resp|err]; cbn; auto.
    destruct (Axios.status resp =? 200); cbn; auto. discriminate.
  - intros H. left. revert H. apply settle_showConfirmStop.
    intros st. destruct r as [resp|err]; cbn; auto.
    destruct (success (Axios.data resp)); cbn; auto.
Qed.

Lemma run_snoc (w : World) (trace : list Event) (e : Event) :
  run w (trace ++ [e]) =
  (fst (step (fst (run w trace)) e),
   snd (run w trace) ++ snd (step (fst (run w trace)) e)).
Proof.
  revert w. induction trace as [|x trace IH]; intros w; cbn [run app fst snd].
  - destruct (step w e) as [w1 fx1]. cbn. now rewrite app_nil_r.
  - destruct (step w x) as [w1 fx1]. rewrite IH.
    destruct (run w1 trace) as [w2 fx2]. cbn. now rewrite app_assoc.
Qed.

Lemma run_showConfirmStop (s : SystemStatus.t) (trace : list Event) :
  showConfirmStop (state (fst (run (mounted s) trace))) = true ->
  In (Click StopSystemButton) trace.
Proof.
  induction trace as [|e trace IH] using rev_ind.
  - cbn. discriminate.
  - rewrite run_snoc. cbn [fst]. intros H.
    apply in_or_app.
    apply step_showConfirmStop in H as [H | ->]; [left; auto | right; now left].
Qed.

(** The stop request leaves by the Yes, Stop button alone, which is in the
    tree only under the confirmation. *)
Lemma step_stop_request (w : World) (e : Event) :
  In PostSystemStop (requests (snd (step w e))) ->
  e = Click YesStopButton /\ showConfirmStop (state w) = true.
Proof.
  destruct e as [c | v | s | r | r | r]; cbn [step].
  - destruct (rendered w c && negb (disabled w c)) eqn:E; cbn [snd]; [|intros []].
    destruct c; cbn; intros H; try contradiction;
      try (destruct H as [H|[]]; discriminate).
    split; trivial.
    cbn in E. apply andb_true_iff in E as [E _].
    now apply andb_true_iff in E as [_ E].
  - destruct (_ && _); cbn; intros [].
  - cbn; intros [].
  - unfold settle. destruct (take Start (pending w)); cbn; [|intros []].
    destruct r as [resp|err]; cbn; [|intros []].
    destruct (Axios.status resp =? 200); cbn; intros [].
  - unfold settle. destruct (take Stop (pending w)); cbn; [|intros []].
    destruct r as [resp|err]; cbn; [|intros []].
    destruct (Axios.status resp =? 200); cbn; intros [].
  - unfold settle. destruct (take Test (pending w)); cbn; [|intros []].
    destruct r as [resp|err]; cbn; [|intros []].
    destruct (success (Axios.data resp)); cbn; intros [].
Qed.

End StopConfirmation.

(** C5.  From the mounted control panel, along any sequence of events: an
    event sends POST /system/stop only if it is a click on Yes, Stop, in a
    state where the confirmation is showing, and with a click on Stop
    System earlier in the sequence.  When the stop is answered with 200
    the confirmation is taken down; when the request is rejected the
    confirmation stays as it was. *)
Theorem stop_is_two_phase
  (s : SystemStatus.t) (before : list SystemControls.Event)
  (e : SystemControls.Event) (st : SystemControls.State)
  (body : unit) (error : Axios.Error) :
  (In PostSystemStop
     (requests (snd (SystemControls.step
        (fst (SystemControls.run (SystemControls.mounted s) before)) e))) ->
   e = SystemControls.Click SystemControls.YesStopButton /\
   SystemControls.showConfirmStop
     (SystemControls.state
        (fst (SystemControls.run (SystemControls.mounted s) before))) = true /\
   In (SystemControls.Click SystemControls.StopSystemButton) before) /\
  SystemControls.showConfirmStop
    (fst (SystemControls.stopSystem_settled st
            (Axios.Fulfilled (Axios.mkResponse 200 body)))) = false /\
  SystemControls.showConfirmStop
    (fst (SystemControls.stopSystem_settled st (Axios.Rejected error)))
  = SystemControls.showConfirmStop st.
Proof.
  split; [|split; reflexivity].
  intros H. apply step_stop_request in H as [-> H].
  repeat split; trivial.
  now apply run_showConfirmStop in H.
Qed.

Lemma stop_is_two_phase_witness :
  In PostSystemStop
    (requests (snd (SystemControls.step
       (fst (SystemControls.run (SystemControls.mounted Sample.running)
               [SystemControls.Click SystemControls.StopSystemButton]))
       (SystemControls.Click SystemControls.YesStopButton)))) /\
  In (SystemControls.Click SystemControls.StopSystemButton)
     [SystemControls.Click SystemControls.StopSystemButton].
Proof.
  split; [now left|].
  apply (proj1 (stop_is_two_phase Sample.running
                  [SystemControls.Click SystemControls.StopSystemButton]
                  (SystemControls.Click SystemControls.YesStopButton)
                  SystemControls.initial tt Sample.networkError)).
  now left.
Defined.

Example stop_without_request :
  SystemControls.step (SystemControls.mounted Sample.running)
    (SystemControls.Click SystemControls.YesStopButton)
  = (SystemControls.mounted Sample.running, []).
Proof. reflexivity. Qed.

(** ** Busy flag *)

(** While [isLoading] is set, the button of each operation is disabled: a
    click on it changes nothing and sends nothing. *)
Lemma busy_controls_click (w : SystemControls.World) (c : SystemControls.Control) :
  SystemControls.isLoading (SystemControls.state w) = true ->
  SystemControls.launches c <> [] ->
  SystemControls.step w (SystemControls.Click c) = (w, []).
Proof.
  intros B L. cbn [SystemControls.step].
  assert (D : SystemControls.disabled w c = true)
    by (destruct c; cbn in *; congruence).
  rewrite D. cbn [negb]. now rewrite andb_false_r.
Qed.

Lemma busy_dashboard_click (w : Dashboard.World) :
  Dashboard.isLoading (Dashboard.state w) = true ->
  Dashboard.step w Dashboard.ClickTestCheck = (w, []).
Proof. intros B. cbn. now rewrite B. Qed.

Lemma busy_booking_click (w : AppointmentSlots.World) :
  AppointmentSlots.isLoading (AppointmentSlots.state w) = true ->
  AppointmentSlots.step w (AppointmentSlots.Click AppointmentSlots.ConfirmBookingButton)
  = (w, []).
Proof.
  intros B. cbn [AppointmentSlots.step AppointmentSlots.disabled].
  rewrite B, orb_true_r. cbn [negb]. now rewrite andb_false_r.
Qed.

Section ControlsLock.

Import SystemControls.

Lemma take_single (op op' : Operation) (rest : list Operation) :
  take op [op'] = Some rest -> rest = [].
Proof.
  cbn. destruct (Operation_eqb op op'); congruence.
Qed.

Lemma settle_locked (w : World) (op : Operation)
  (k : State -> State * list Effect) :
  controlsLocked w -> controlsLocked (fst (settle w op k)).
Proof.
  intros I. unfold settle.
  destruct (take op (pending w)) as [rest|] eqn:T; cbn [fst]; trivial.
  unfold controlsLocked in *. cbn [pending state].
  destruct I as [E | [_ [op' E]]]; rewrite E in T.
  - discriminate.
  - apply take_single in T. subst rest. now left.
Qed.

Lemma step_locked (w : World) (e : Event) :
  controlsLocked w -> controlsLocked (fst (step w e)).
Proof.
  intros I. destruct e as [c | v | s | r | r | r]; cbn [step];
    try now apply settle_locked.
  - destruct (rendered w c && negb (disabled w c)) eqn:E; cbn [fst]; trivial.
    apply andb_true_iff in E as [_ E]. apply negb_true_iff in E.
    unfold controlsLocked in *.
    destruct c; cbn in E |- *; try rewrite app_nil_r; trivial;
      (destruct I as [P | [B _]]; [rewrite P | congruence]);
      right; cbn; eauto.
  - destruct (_ && _); cbn; trivial.
  - exact I.
Qed.

Lemma run_locked (s : SystemStatus.t) (trace : list Event) :
  controlsLocked (fst (run (mounted s) trace)).
Proof.
  induction trace as [|e trace IH] using rev_ind.
  - now left.
  - rewrite run_snoc. cbn [fst]. now apply step_locked.
Qed.

(** On the control panel, for as long as it stays mounted, the flag does
    its work: along any sequence of events, while a request is out a click
    on Start System, on Yes, Stop or on Run Test Check is without effect. *)
Lemma controls_no_second_request (s : SystemStatus.t) (trace : list Event)
  (c : Control) :
  pending (fst (run (mounted s) trace)) <> [] ->
  launches c <> [] ->
  step (fst (run (mounted s) trace)) (Click c) = (fst (run (mounted s) trace), []).
Proof.
  intros P L. apply busy_controls_click; trivial.
  destruct (run_locked s trace) as [E | [B _]]; [contradiction | exact B].
Qed.

End ControlsLock.

Section DashboardLock.

Import Dashboard.

Lemma take_one (k k' : Waiting) (rest : list Waiting) :
  take k [k'] = Some rest -> rest = [].
Proof.
  cbn. destruct (Waiting_eqb k k'); congruence.
Qed.

Lemma dashboard_step_locked (w : World) (e : Event) :
  dashboardLocked w -> dashboardLocked (fst (step w e)).
Proof.
  unfold dashboardLocked.
  intros I. destruct e as [| inTest r | inTest r | r]; cbn [step].
  - destruct (isLoading (state w)) eqn:B; cbn [fst].
    + rewrite B. exact I.
    + destruct I as [P | [B' _]]; [|discriminate].
      rewrite P. right. cbn. eauto.
  - unfold settle. destruct (take _ _) as [rest|] eqn:T; cbn [fst]; trivial.
    destruct I as [P | [B [k P]]]; rewrite P in T; [discriminate|].
    apply take_one in T. subst rest.
    destruct r as [resp|err]; cbn.
    + right. eauto.
    + destruct inTest; now left.
  - unfold settle. destruct (take _ _) as [rest|] eqn:T; cbn [fst]; trivial.
    destruct I as [P | [B [k P]]]; rewrite P in T; [discriminate|].
    apply take_one in T. subst rest.
    destruct r as [resp|err], inTest; now left.
  - unfold settle. destruct (take _ _) as [rest|] eqn:T; cbn [fst]; trivial.
    destruct I as [P | [B [k P]]]; rewrite P in T; [discriminate|].
    apply take_one in T. subst rest.
    destruct r as [resp|err]; cbn; [|now left].
    destruct (SystemControls.success (Axios.data resp)); cbn;
      [right; eauto | now left].
Qed.

Lemma dashboard_run_snoc (w : World) (trace : list Event) (e : Event) :
  fst (run w (trace ++ [e])) = fst (step (fst (run w trace)) e).
Proof.
  revert w. induction trace as [|x trace IH]; intros w; cbn [run app fst snd].
  - now destruct (step w e).
  - destruct (step w x) as [w1 fx1]. specialize (IH w1).
    destruct (run w1 (trace ++ [e])), (run w1 trace). exact IH.
Qed.

Lemma dashboard_run_locked (trace : list Event) :
  dashboardLocked (fst (run mounted trace)).
Proof.
  induction trace as [|e trace IH] using rev_ind.
  - right. cbn. eauto.
  - rewrite dashboard_run_snoc. now apply dashboard_step_locked.
Qed.

(** The same on the dashboard for its test check. *)
Lemma dashboard_no_second_request (trace : list Event) :
  pending (fst (run mounted trace)) <> [] ->
  step (fst (run mounted trace)) ClickTestCheck = (fst (run mounted trace), []).
Proof.
  intros P. apply busy_dashboard_click.
  destruct (dashboard_run_locked trace) as [E | [B _]]; [contradiction | exact B].
Qed.

End DashboardLock.

(** C3, at the booking.  The appointments page shares one flag between the
    slot refresh and the booking.  Along [Sample.doubleBooking] the answer
    to a refresh arrives while a booking is out and clears the flag: one
    booking is in flight, the flag is down, the Confirm Booking button is
    live, and a click on it sends a second POST /appointments/book for the
    same slot, leaving two in flight. *)
Theorem booking_resubmitted_while_in_flight :
  AppointmentSlots.bookingsInFlight
    (fst (AppointmentSlots.run AppointmentSlots.mounted Sample.doubleBooking)) = 1%nat /\
  AppointmentSlots.isLoading (AppointmentSlots.state
    (fst (AppointmentSlots.run AppointmentSlots.mounted Sample.doubleBooking))) = false /\
  requests (snd (AppointmentSlots.run AppointmentSlots.mounted Sample.doubleBooking))
  = [PostAppointmentsBook "s1" true; GetAppointmentsAvailable None;
     PostAppointmentsBook "s2" true] /\
  snd (AppointmentSlots.step
         (fst (AppointmentSlots.run AppointmentSlots.mounted Sample.doubleBooking))
         (AppointmentSlots.Click AppointmentSlots.ConfirmBookingButton))
  = [Http (PostAppointmentsBook "s2" true)] /\
  AppointmentSlots.bookingsInFlight
    (fst (AppointmentSlots.step
            (fst (AppointmentSlots.run AppointmentSlots.mounted Sample.doubleBooking))
            (AppointmentSlots.Click AppointmentSlots.ConfirmBookingButton))) = 2%nat.
Proof. repeat split. Qed.

(** ** Error surface *)

Section ErrorSurface.

Variable error : Axios.Error.

(** The text after the prefix, where a handler uses
    [error.response?.data?.detail || error.message]: the detail when there
    is one and it is not empty, the message of axios otherwise. *)
Lemma detail_or_message_spec :
  (forall d, Axios.response_data_detail error = Some d -> d <> "" ->
             Axios.detail_or_message error = d) /\
  (Axios.response_data_detail error = None ->
   Axios.detail_or_message error = Axios.message error) /\
  (Axios.response_data_detail error = Some "" ->
   Axios.detail_or_message error = Axios.message error).
Proof.
  unfold Axios.detail_or_message. repeat split.
  - intros d -> N. destruct (String.eqb_spec d ""); congruence.
  - now intros ->.
  - now intros ->.
Qed.

(** Start, stop, the test check of the control panel and the booking all
    show that text. *)
Lemma uniform_error_alerts
  (c : SystemControls.State) (a : AppointmentSlots.State) :
  snd (SystemControls.startSystem_settled c (Axios.Rejected error))
  = [ConsoleError "Failed to start system:";
     Alert ("Failed to start system: " ++ Axios.detail_or_message error)] /\
  snd (SystemControls.stopSystem_settled c (Axios.Rejected error))
  = [ConsoleError "Failed to stop system:";
     Alert ("Failed to stop system: " ++ Axios.detail_or_message error)] /\
  snd (SystemControls.runTestCheck_settled c (Axios.Rejected error))
  = [ConsoleError "Test check failed:";
     Alert ("❌ Test check failed: " ++ Axios.detail_or_message error)] /\
  snd (AppointmentSlots.confirmBooking_settled a (Axios.Rejected error))
  = [ConsoleError "Booking failed:";
     Alert ("❌ Booking failed: " ++ Axios.detail_or_message error)].
Proof. repeat split. Qed.

End ErrorSurface.

(** C9, at the test check of the dashboard.  The server answers 500 with
    the detail "OCR service unavailable".  The test check of the control
    panel shows that detail; the test check of the dashboard shows the
    message of axios, and for every error it shows that message, whatever
    detail came with it. *)
Theorem dashboard_test_check_drops_detail :
  Axios.response_data_detail Sample.serverError = Some "OCR service unavailable" /\
  snd (SystemControls.runTestCheck_settled SystemControls.initial
         (Axios.Rejected Sample.serverError))
  = [ConsoleError "Test check failed:";
     Alert "❌ Test check failed: OCR service unavailable"] /\
  snd (fst (Dashboard.runTestCheck_settled Dashboard.initial
              (Axios.Rejected Sample.serverError)))
  = [ConsoleError "Test check failed:";
     Alert "Test check failed: Request failed with status code 500"] /\
  (forall st error,
     snd (fst (Dashboard.runTestCheck_settled st (Axios.Rejected error)))
     = [ConsoleError "Test check failed:";
        Alert ("Test check failed: " ++ Axios.message error)]).
Proof. repeat split. Qed.

(** * Further properties of the components *)

(** ** App *)

Section AppFacts.

Import App.

Lemma App_run_snoc (w : World) (trace : list Event) (e : Event) :
  fst (run w (trace ++ [e])) = fst (step (fst (run w trace)) e).
Proof.
  revert w. induction trace as [|x trace IH]; intros w; cbn [run app fst snd].
  - now destruct (step w e).
  - destruct (step w x) as [w1 fx1]. specialize (IH w1).
    destruct (run w1 (trace ++ [e])), (run w1 trace). exact IH.
Qed.

Lemma App_step_connected (w : World) (e : Event) :
  (isConnected (state w) = true -> websocket (state w) = true) ->
  isConnected (state (fst (step w e))) = true ->
  websocket (state (fst (step w e))) = true.
Proof.
  intros I.
  destruct e as [| [|[]] | | | | |[resp|err]]; cbn; auto; try discriminate.
  - destruct (pending w); cbn; auto.
  - destruct (pending w); cbn; auto.
Qed.

(** X1.  From mount on, whatever the socket and the server do, the
    connected signal is up only while the socket handle given to the pages
    is set. *)
Theorem connected_has_socket (trace : list Event) :
  isConnected (state (fst (run mounted trace))) = true ->
  websocket (state (fst (run mounted trace))) = true.
Proof.
  induction trace as [|e trace IH] using rev_ind.
  - cbn. discriminate.
  - rewrite App_run_snoc. now apply App_step_connected.
Qed.

Lemma connected_has_socket_witness :
  isConnected (state (fst (run mounted [WsOpen; IntervalTick]))) = true /\
  websocket (state (fst (run mounted [WsOpen; IntervalTick]))) = true.
Proof.
  split; [reflexivity|].
  apply (connected_has_socket [WsOpen; IntervalTick]). reflexivity.
Defined.

(** X2.  The status requests of App.  The mount effect sends the first
    GET /system/status.  After that, a tick of the interval, a child's
    [onStatusUpdate] and a [slots_found] message each send exactly one
    GET /system/status and put one more request in waiting; every other
    event (another message, text that does not parse, a socket event, an
    answer) sends no request at all. *)
Theorem App_request_triggers (w : World) (e : Event) :
  pending mounted = List.length (requests (snd (fetchSystemStatus initial))) /\
  (e = IntervalTick \/ e = ChildStatusUpdate \/
   (exists data, e = WsMessage (Ws.Json (Ws.SlotsFound data))) ->
   requests (snd (step w e)) = [GetSystemStatus] /\
   pending (fst (step w e)) = S (pending w)) /\
  (~ (e = IntervalTick \/ e = ChildStatusUpdate \/
      exists data, e = WsMessage (Ws.Json (Ws.SlotsFound data))) ->
   requests (snd (step w e)) = []).
Proof.
  split; [reflexivity|]. split.
  - intros [-> | [-> | [data ->]]]; cbn; split; trivial; lia.
  - intros N.
    destruct e as [| [|[]] | | | | |[resp|err]]; cbn; trivial;
      try (destruct (pending w); reflexivity);
      elim N; eauto.
Qed.

Lemma App_request_triggers_witness :
  requests (snd (step mounted IntervalTick)) = [GetSystemStatus] /\
  pending (fst (step mounted IntervalTick)) = 2%nat.
Proof.
  apply (proj1 (proj2 (App_request_triggers mounted IntervalTick))).
  now left.
Defined.

End AppFacts.

(** ** The address of the push channel *)

Section SocketFacts.

Import Socket.

Lemma replace_absent (s pattern replacement : string) :
  Str.includes s pattern = false -> replace s pattern replacement = s.
Proof.
  induction s as [|c s IH]; cbn [Str.includes replace]; intros H;
    apply orb_false_iff in H as [H1 H2]; rewrite H1.
  - reflexivity.
  - now rewrite IH.
Qed.

Lemma replace_unfold (s pattern replacement : string) :
  replace s pattern replacement =
  if Str.startsWith s pattern
  then (replacement ++ skip (String.length pattern) s)%string
  else match s with
       | EmptyString => EmptyString
       | String c s' => String c (replace s' pattern replacement)
       end.
Proof. now destruct s. Qed.

Lemma skip_prefix (pattern rest : string) :
  skip (String.length pattern) (pattern ++ rest) = rest.
Proof.
  induction pattern as [|c pattern IH]; cbn; trivial.
Qed.

(** The first occurrence is the one replaced: here the one at the head. *)
Lemma replace_prefix (pattern rest replacement : string) :
  replace (pattern ++ rest) pattern replacement = (replacement ++ rest)%string.
Proof.
  rewrite replace_unfold.
  assert (H : Str.startsWith (pattern ++ rest) pattern = true)
    by (apply startsWith_spec; now exists rest).
  now rewrite H, skip_prefix.
Qed.

(** X3.  For a backend address that holds no further scheme after its own,
    the socket address is the same host under [wss://] for [https://] and
    under [ws://] for [http://], with [/ws] at the end. *)
Theorem wsUrl_scheme (rest : string) :
  Str.includes rest "http://" = false ->
  Str.includes rest "https://" = false ->
  wsUrl ("https://" ++ rest) = ("wss://" ++ rest ++ "/ws")%string /\
  wsUrl ("http://" ++ rest) = ("ws://" ++ rest ++ "/ws")%string.
Proof.
  intros H1 H2. unfold wsUrl. split.
  - rewrite replace_prefix, replace_absent; [reflexivity|].
    cbn. exact H1.
  - rewrite (replace_absent ("http://" ++ rest)), replace_prefix;
      [reflexivity|].
    cbn. exact H2.
Qed.

Lemma wsUrl_scheme_witness :
  Str.includes "bls2.example.com" "http://" = false /\
  Str.includes "bls2.example.com" "https://" = false /\
  wsUrl "https://bls2.example.com" = "wss://bls2.example.com/ws" /\
  wsUrl "http://bls2.example.com" = "ws://bls2.example.com/ws".
Proof.
  split; [reflexivity|]. split; [reflexivity|].
  apply (wsUrl_scheme "bls2.example.com"); reflexivity.
Defined.

(** X4.  An address with neither scheme in it is left as it is, and only
    gets [/ws] at its end. *)
Theorem wsUrl_no_scheme (url : string) :
  Str.includes url "http://" = false ->
  Str.includes url "https://" = false ->
  wsUrl url = (url ++ "/ws")%string.
Proof.
  intros H1 H2. unfold wsUrl.
  now rewrite (replace_absent url "https://" "wss://" H2), replace_absent.
Qed.

Lemma wsUrl_no_scheme_witness :
  Str.includes "localhost:8001" "http://" = false /\
  Str.includes "localhost:8001" "https://" = false /\
  wsUrl "localhost:8001" = "localhost:8001/ws".
Proof.
  split; [reflexivity|]. split; [reflexivity|].
  apply (wsUrl_no_scheme "localhost:8001"); reflexivity.
Defined.

End SocketFacts.

(** ** The control panel *)

Section ControlsFacts.

Import SystemControls.

Lemma settled_clears_flag (op : Operation) (st : State)
  (r1 : Axios.Settled unit) (r2 : Axios.Settled CheckOnce) :
  isLoading (fst (startSystem_settled st r1)) = false /\
  isLoading (fst (stopSystem_settled st r1)) = false /\
  isLoading (fst (runTestCheck_settled st r2)) = false.
Proof.
  repeat split.
  - destruct r1 as [resp|err]; cbn; trivial.
    now destruct (Axios.status resp =? 200).
  - destruct r1 as [resp|err]; cbn; trivial.
    now destruct (Axios.status resp =? 200).
  - destruct r2 as [resp|err]; cbn; trivial.
    now destruct (success (Axios.data resp)).
Qed.

Lemma settle_idle_or_busy (w : World) (op : Operation)
  (k : State -> State * list Effect) :
  (forall st, isLoading (fst (k st)) = false) ->
  (pending w = [] /\ isLoading (state w) = false) \/
  (isLoading (state w) = true /\ exists op', pending w = [op']) ->
  (pending (fst (settle w op k)) = [] /\
   isLoading (state (fst (settle w op k))) = false) \/
  (isLoading (state (fst (settle w op k))) = true /\
   exists op', pending (fst (settle w op k)) = [op']).
Proof.
  intros K I. unfold settle.
  destruct (take op (pending w)) as [rest|] eqn:T; cbn [fst]; trivial.
  destruct I as [[E _] | [_ [op' E]]]; rewrite E in T.
  - discriminate.
  - apply take_single in T. subst rest. left. cbn. auto.
Qed.

Lemma step_idle_or_busy (w : World) (e : Event) :
  (pending w = [] /\ isLoading (state w) = false) \/
  (isLoading (state w) = true /\ exists op, pending w = [op]) ->
  (pending (fst (step w e)) = [] /\ isLoading (state (fst (step w e))) = false) \/
  (isLoading (state (fst (step w e))) = true /\
   exists op, pending (fst (step w e)) = [op]).
Proof.
  intros I. destruct e as [c | v | s | r | r | r]; cbn [step].
  - destruct (rendered w c && negb (disabled w c)) eqn:E; cbn [fst]; trivial.
    apply andb_true_iff in E as [_ E]. apply negb_true_iff in E.
    destruct c; cbn in E |- *; try rewrite app_nil_r; trivial;
      (destruct I as [[P _] | [B _]]; [rewrite P | congruence]);
      right; cbn; eauto.
  - destruct (_ && _); cbn; trivial.
  - exact I.
  - apply settle_idle_or_busy; trivial.
    intros st. apply (settled_clears_flag Start st r (Axios.Rejected Sample.networkError)).
  - apply settle_idle_or_busy; trivial.
    intros st. apply (settled_clears_flag Stop st r (Axios.Rejected Sample.networkError)).
  - apply settle_idle_or_busy; trivial.
    intros st. apply (settled_clears_flag Test st (Axios.Rejected Sample.networkError) r).
Qed.

(** X5.  On the mounted control panel, along any sequence of clicks,
    prop changes and answers: the busy flag is up exactly while a request
    of the panel is out, and never more than one is out.  So the flag is
    released by every answer, success or failure, and it cannot stay up
    with nothing to wait for. *)
Theorem controls_flag_tracks_request (s : SystemStatus.t) (trace : list Event) :
  (isLoading (state (fst (run (mounted s) trace))) = true <->
   pending (fst (run (mounted s) trace)) <> []) /\
  (List.length (pending (fst (run (mounted s) trace))) <= 1)%nat.
Proof.
  assert (I :
    (pending (fst (run (mounted s) trace)) = [] /\
     isLoading (state (fst (run (mounted s) trace))) = false) \/
    (isLoading (state (fst (run (mounted s) trace))) = true /\
     exists op, pending (fst (run (mounted s) trace)) = [op])).
  { induction trace as [|e trace IH] using rev_ind.
    - left. cbn. auto.
    - rewrite run_snoc. cbn [fst]. now apply step_idle_or_busy. }
  destruct I as [[P B] | [B [op P]]]; rewrite P, B; cbn.
  - split; [|lia]. split; [discriminate | congruence].
  - split; [|lia]. split; [discriminate | trivial].
Qed.

Lemma step_checkInterval (w : World) (e : Event) :
  In (checkInterval (state w)) intervalOptions ->
  In (checkInterval (state (fst (step w e)))) intervalOptions.
Proof.
  intros I. destruct e as [c | v | s | r | r | r]; cbn [step].
  - destruct (rendered w c && negb (disabled w c)); cbn [fst]; trivial.
    now destruct c.
  - destruct (_ && _) eqn:E; cbn [fst state]; trivial.
    apply andb_true_iff in E as [_ E]. apply existsb_exists in E as [x [Hx E]].
    apply Z.eqb_eq in E. now subst x.
  - exact I.
  - unfold settle. destruct (take _ _); cbn; trivial.
    destruct r as [resp|err]; cbn; trivial.
    now destruct (Axios.status resp =? 200).
  - unfold settle. destruct (take _ _); cbn; trivial.
    destruct r as [resp|err]; cbn; trivial.
    now destruct (Axios.status resp =? 200).
  - unfold settle. destruct (take _ _); cbn; trivial.
    destruct r as [resp|err]; cbn; trivial.
    now destruct (success (Axios.data resp)).
Qed.

Lemma step_start_request (w : World) (e : Event) (n : Z) :
  In (PostSystemStart n) (requests (snd (step w e))) ->
  e = Click StartSystemButton /\ n = checkInterval (state w) /\
  isSystemStopped w = true.
Proof.
  destruct e as [c | v | s | r | r | r]; cbn [step].
  - destruct (rendered w c && negb (disabled w c)) eqn:E; cbn [snd]; [|intros []].
    destruct c; cbn; intros H; try contradiction;
      try (destruct H as [H|[]]; discriminate).
    destruct H as [H|[]]. injection H as <-.
    cbn in E. apply andb_true_iff in E as [E _]. auto.
  - destruct (_ && _); cbn; intros [].
  - cbn; intros [].
  - unfold settle. destruct (take Start (pending w)); cbn; [|intros []].
    destruct r as [resp|err]; cbn; [|intros []].
    destruct (Axios.status resp =? 200); cbn; intros [].
  - unfold settle. destruct (take Stop (pending w)); cbn; [|intros []].
    destruct r as [resp|err]; cbn; [|intros []].
    destruct (Axios.status resp =? 200); cbn; intros [].
  - unfold settle. destruct (take Test (pending w)); cbn; [|intros []].
    destruct r as [resp|err]; cbn; [|intros []].
    destruct (success (Axios.data resp)); cbn; intros [].
Qed.

(** X6.  Every POST /system/start that the panel sends, along any
    sequence of events, carries a [check_interval_minutes] of 1, 2, 3, 5
    or 10: the value starts at 2 and the select changes it to one of its
    options only. *)
Theorem start_interval_is_an_option
  (s : SystemStatus.t) (before : list Event) (e : Event) (n : Z) :
  In (PostSystemStart n)
     (requests (snd (step (fst (run (mounted s) before)) e))) ->
  In n [1; 2; 3; 5; 10].
Proof.
  intros H. apply step_start_request in H as [_ [-> _]].
  induction before as [|x before IH] using rev_ind.
  - cbn. auto.
  - rewrite run_snoc. cbn [fst]. now apply step_checkInterval.
Qed.

Lemma start_interval_is_an_option_witness :
  In (PostSystemStart 5)
     (requests (snd (step (fst (run (mounted (App.systemStatus App.initial))
                                  [ChangeInterval 5; ChangeInterval 7]))
                          (Click StartSystemButton)))) /\
  In 5 [1; 2; 3; 5; 10].
Proof.
  split; [now left|].
  apply (start_interval_is_an_option (App.systemStatus App.initial)
           [ChangeInterval 5; ChangeInterval 7] (Click StartSystemButton) 5).
  now left.
Defined.

(** X7.  The panel sends the start request only while the status it is
    given reads [stopped], and the stop request only while it reads
    [running]; in both cases the flag is down when the click is taken. *)
Theorem start_stop_follow_status (w : World) (e : Event) :
  (forall n, In (PostSystemStart n) (requests (snd (step w e))) ->
     SystemStatus.status (systemStatus w) = "stopped" /\
     isLoading (state w) = false) /\
  (In PostSystemStop (requests (snd (step w e))) ->
     SystemStatus.status (systemStatus w) = "running" /\
     isLoading (state w) = false).
Proof.
  split.
  - intros n H. pose proof (step_start_request w e n H) as [-> [_ S]].
    split; [now apply String.eqb_eq|].
    cbn in H. destruct (isSystemStopped w && negb (isLoading (state w))) eqn:E;
      [|destruct H].
    apply andb_true_iff in E as [_ E]. now apply negb_true_iff in E.
  - intros H. pose proof (step_stop_request w e H) as [-> _].
    cbn in H.
    destruct (isSystemRunning w && showConfirmStop (state w)
              && negb (isLoading (state w))) eqn:E; [|destruct H].
    apply andb_true_iff in E as [E1 E2]. apply andb_true_iff in E1 as [E1 _].
    split; [now apply String.eqb_eq | now apply negb_true_iff in E2].
Qed.

Lemma start_stop_follow_status_witness :
  In PostSystemStop
     (requests (snd (step (fst (run (mounted Sample.running) [Click StopSystemButton]))
                          (Click YesStopButton)))) /\
  SystemStatus.status Sample.running = "running".
Proof.
  split; [now left|].
  apply (proj2 (start_stop_follow_status
                  (fst (run (mounted Sample.running) [Click StopSystemButton]))
                  (Click YesStopButton))).
  now left.
Defined.

(** X8.  The panel sends a request only on a click, and one request for
    one click.  An answer, a change of the status prop or of the interval
    sends nothing; in particular a failed operation is not tried again on
    its own. *)
Theorem controls_send_on_click_only (w : World) (e : Event) (r : Request) :
  In r (requests (snd (step w e))) ->
  requests (snd (step w e)) = [r] /\
  exists c, e = Click c /\ launches c <> [].
Proof.
  destruct e as [c | v | s | r0 | r0 | r0]; cbn [step].
  - destruct (rendered w c && negb (disabled w c)); cbn [snd]; [|intros []].
    destruct c; cbn; intros H; try contradiction;
      destruct H as [<-|[]]; (split; [reflexivity|]);
      eexists; (split; [reflexivity|]); discriminate.
  - destruct (_ && _); cbn; intros [].
  - cbn; intros [].
  - unfold settle. destruct (take Start (pending w)); cbn; [|intros []].
    destruct r0 as [resp|err]; cbn; [|intros []].
    destruct (Axios.status resp =? 200); cbn; intros [].
  - unfold settle. destruct (take Stop (pending w)); cbn; [|intros []].
    destruct r0 as [resp|err]; cbn; [|intros []].
    destruct (Axios.status resp =? 200); cbn; intros [].
  - unfold settle. destruct (take Test (pending w)); cbn; [|intros []].
    destruct r0 as [resp|err]; cbn; [|intros []].
    destruct (success (Axios.data resp)); cbn; intros [].
Qed.

Lemma controls_send_on_click_only_witness :
  In PostTestCheckOnce
     (requests (snd (step (mounted Sample.running) (Click RunTestCheckButton)))) /\
  requests (snd (step (mounted Sample.running) (Click RunTestCheckButton)))
  = [PostTestCheckOnce].
Proof.
  split; [now left|].
  apply (controls_send_on_click_only (mounted Sample.running)
           (Click RunTestCheckButton) PostTestCheckOnce).
  now left.
Defined.

End ControlsFacts.

(** ** Answers *)

(** X9.  After an answer, the parent is asked to refresh the status
    exactly when the operation succeeded: start, stop and booking on a
    fulfilled request with status 200, the test check on a fulfilled
    request whose body says [success].  A rejected request never asks for
    it. *)
Theorem status_refresh_iff_success
  (c : SystemControls.State) (a : AppointmentSlots.State)
  (r1 : Axios.Settled unit) (r2 : Axios.Settled SystemControls.CheckOnce)
  (r3 : Axios.Settled AppointmentSlots.Booked) :
  (In OnStatusUpdate (snd (SystemControls.startSystem_settled c r1)) <->
   exists body, r1 = Axios.Fulfilled (Axios.mkResponse 200 body)) /\
  (In OnStatusUpdate (snd (SystemControls.stopSystem_settled c r1)) <->
   exists body, r1 = Axios.Fulfilled (Axios.mkResponse 200 body)) /\
  (In OnStatusUpdate (snd (SystemControls.runTestCheck_settled c r2)) <->
   exists resp, r2 = Axios.Fulfilled resp /\
                SystemControls.success (Axios.data resp) = true) /\
  (In OnStatusUpdate (snd (AppointmentSlots.confirmBooking_settled a r3)) <->
   exists body, r3 = Axios.Fulfilled (Axios.mkResponse 200 body)).
Proof.
  repeat split.
  - destruct r1 as [[code body]|err]; cbn.
    + destruct (Z.eqb_spec code 200) as [->|N]; cbn; [eauto | intros []].
    + intros [H|[H|[]]]; discriminate.
  - intros [body ->]. cbn. auto.
  - destruct r1 as [[code body]|err]; cbn.
    + destruct (Z.eqb_spec code 200) as [->|N]; cbn; [eauto | intros []].
    + intros [H|[H|[]]]; discriminate.
  - intros [body ->]. cbn. auto.
  - destruct r2 as [resp|err]; cbn.
    + destruct (SystemControls.success (Axios.data resp)) eqn:S; cbn; [eauto|].
      intros [H|[]]; discriminate.
    + intros [H|[H|[]]]; discriminate.
  - intros [resp [-> S]]. cbn. rewrite S. cbn. auto.
  - destruct r3 as [[code body]|err]; cbn.
    + destruct (Z.eqb_spec code 200) as [->|N]; cbn; [eauto | intros []].
    + intros [H|[H|[]]]; discriminate.
  - intros [body ->]. cbn. auto.
Qed.

(** X10.  A fulfilled answer whose status is not 200 (a 201 or a 204,
    say) is passed over in silence by start, stop and booking: the flag is
    cleared and nothing else happens, no alert, no status refresh, no slot
    refresh, and the stop confirmation and the booking dialog stay as they
    are. *)
Theorem fulfilled_not_200_is_silent
  (code : Z) (c : SystemControls.State) (a : AppointmentSlots.State)
  (body : AppointmentSlots.Booked) :
  code <> 200 ->
  SystemControls.startSystem_settled c (Axios.Fulfilled (Axios.mkResponse code tt))
  = (SystemControls.setIsLoading false c, []) /\
  SystemControls.stopSystem_settled c (Axios.Fulfilled (Axios.mkResponse code tt))
  = (SystemControls.setIsLoading false c, []) /\
  AppointmentSlots.confirmBooking_settled a (Axios.Fulfilled (Axios.mkResponse code body))
  = (AppointmentSlots.setIsLoading false a, []).
Proof.
  intros N. apply Z.eqb_neq in N. cbn. rewrite N. auto.
Qed.

Lemma fulfilled_not_200_is_silent_witness :
  204 <> 200 /\
  SystemControls.stopSystem_settled
    (SystemControls.setShowConfirmStop true SystemControls.initial)
    (Axios.Fulfilled (Axios.mkResponse 204 tt))
  = (SystemControls.setIsLoading false
       (SystemControls.setShowConfirmStop true SystemControls.initial), []).
Proof.
  split; [discriminate|].
  apply (fulfilled_not_200_is_silent 204
           (SystemControls.setShowConfirmStop true SystemControls.initial)
           AppointmentSlots.initial
           {| AppointmentSlots.confirmation_id := "" |}).
  discriminate.
Defined.

(** ** The dashboard *)

Section DashboardFacts.

Import Dashboard.

Lemma dashboard_step_idle_or_busy (w : World) (e : Event) :
  (pending w = [] /\ isLoading (state w) = false) \/
  (isLoading (state w) = true /\ exists k, pending w = [k]) ->
  (pending (fst (step w e)) = [] /\ isLoading (state (fst (step w e))) = false) \/
  (isLoading (state (fst (step w e))) = true /\
   exists k, pending (fst (step w e)) = [k]).
Proof.
  intros I. destruct e as [| inTest r | inTest r | r]; cbn [step].
  - destruct (isLoading (state w)) eqn:B; cbn [fst].
    + rewrite B. exact I.
    + destruct I as [[P _] | [B' _]]; [|discriminate].
      rewrite P. right. cbn. eauto.
  - unfold settle. destruct (take _ _) as [rest|] eqn:T; cbn [fst]; trivial.
    destruct I as [[P _] | [B [k P]]]; rewrite P in T; [discriminate|].
    apply take_one in T. subst rest.
    destruct r as [resp|err]; cbn.
    + right. eauto.
    + destruct inTest; now left.
  - unfold settle. destruct (take _ _) as [rest|] eqn:T; cbn [fst]; trivial.
    destruct I as [[P _] | [B [k P]]]; rewrite P in T; [discriminate|].
    apply take_one in T. subst rest.
    destruct r as [resp|err], inTest; now left.
  - unfold settle. destruct (take _ _) as [rest|] eqn:T; cbn [fst]; trivial.
    destruct I as [[P _] | [B [k P]]]; rewrite P in T; [discriminate|].
    apply take_one in T. subst rest.
    destruct r as [resp|err]; cbn; [|now left].
    destruct (SystemControls.success (Axios.data resp)); cbn;
      [right; eauto | now left].
Qed.

(** X11.  On the mounted dashboard, along any sequence of clicks and
    answers: the flag is up exactly while a request is out, the first
    load included, and never more than one is out.  The Test Check button
    is thus dead during the first load and during the whole of a test
    check with its reload, and live otherwise. *)
Theorem dashboard_flag_tracks_request (trace : list Event) :
  (isLoading (state (fst (run mounted trace))) = true <->
   pending (fst (run mounted trace)) <> []) /\
  (List.length (pending (fst (run mounted trace))) <= 1)%nat.
Proof.
  assert (I :
    (pending (fst (run mounted trace)) = [] /\
     isLoading (state (fst (run mounted trace))) = false) \/
    (isLoading (state (fst (run mounted trace))) = true /\
     exists k, pending (fst (run mounted trace)) = [k])).
  { induction trace as [|e trace IH] using rev_ind.
    - right. cbn. eauto.
    - rewrite dashboard_run_snoc. now apply dashboard_step_idle_or_busy. }
  destruct I as [[P B] | [B [k P]]]; rewrite P, B; cbn.
  - split; [|lia]. split; [discriminate | congruence].
  - split; [|lia]. split; [discriminate | trivial].
Qed.

(** X12.  A test check that succeeds, from an idle dashboard: the click
    sends the POST; its answer shows the count and starts the reload, logs
    first (limit 10) and then slots (limit 5); when both are answered the
    two lists are the fetched ones, the status refresh is asked for once,
    last, and the dashboard is idle again. *)
Theorem dashboard_test_check_round
  (st : State) (found c1 c2 c3 : Z)
  (logs : list LogEntry.t) (slots : list Slot.t) :
  isLoading st = false ->
  run {| state := st; pending := [] |}
    [ ClickTestCheck;
      TestSettled (Axios.Fulfilled (Axios.mkResponse c1
                     {| SystemControls.success := true;
                        SystemControls.slots_found := found |}));
      LogsSettled true (Axios.Fulfilled (Axios.mkResponse c2 logs));
      SlotsSettled true (Axios.Fulfilled (Axios.mkResponse c3 slots)) ]
  = ({| state := {| recentLogs := logs; availableSlots := slots;
                    isLoading := false |};
        pending := [] |},
     [ Http PostTestCheckOnce;
       Alert ("Test completed! Found " ++ show_Z found ++ " slots.");
       Http (GetLogs 10 None);
       Http (GetAppointmentsAvailable (Some 5));
       OnStatusUpdate ]).
Proof.
  intros B. cbn. rewrite B. reflexivity.
Qed.

Lemma dashboard_test_check_round_witness :
  isLoading initial = false /\
  fst (run {| state := initial; pending := [] |}
         [ ClickTestCheck;
           TestSettled (Sample.ok {| SystemControls.success := true;
                                     SystemControls.slots_found := 2 |});
           LogsSettled true (Sample.ok [Sample.log1]);
           SlotsSettled true (Sample.ok [Sample.slot1; Sample.slot2]) ])
  = {| state := {| recentLogs := [Sample.log1];
                   availableSlots := [Sample.slot1; Sample.slot2];
                   isLoading := false |};
       pending := [] |}.
Proof.
  split; [reflexivity|].
  exact (f_equal fst
           (dashboard_test_check_round initial 2 200 200 200
              [Sample.log1] [Sample.slot1; Sample.slot2] eq_refl)).
Defined.

(** X13.  When the logs request of a reload fails, the reload ends there:
    the slots are not asked for, both lists stay as they were and the flag
    is cleared; inside a test check the status refresh is still asked
    for. *)
Theorem dashboard_reload_stops_at_failed_logs
  (inTest : bool) (st : State) (error : Axios.Error) :
  let '(st', fx, more) := fetchRecentData_logs_settled inTest st (Axios.Rejected error) in
  requests fx = [] /\ more = [] /\
  recentLogs st' = recentLogs st /\ availableSlots st' = availableSlots st /\
  isLoading st' = false /\
  (In OnStatusUpdate fx <-> inTest = true).
Proof.
  destruct inTest; cbn; repeat split; auto.
  - intros [H|[]]. discriminate.
  - discriminate.
Qed.

End DashboardFacts.

(** ** The appointments page *)

Section AppointmentFacts.

Import AppointmentSlots.

Lemma appointments_run_snoc (w : World) (trace : list Event) (e : Event) :
  run w (trace ++ [e]) =
  (fst (step (fst (run w trace)) e),
   snd (run w trace) ++ snd (step (fst (run w trace)) e)).
Proof.
  revert w. induction trace as [|x trace IH]; intros w; cbn [run app fst snd].
  - destruct (step w e) as [w1 fx1]. cbn. now rewrite app_nil_r.
  - destruct (step w x) as [w1 fx1]. rewrite IH.
    destruct (run w1 trace) as [w2 fx2]. cbn. now rewrite app_assoc.
Qed.

(** The cached slots change by an answered refresh only. *)
Lemma step_slots (w : World) (e : Event) :
  slots (state (fst (step w e))) = slots (state w) \/
  exists resp, e = SlotsSettled (Axios.Fulfilled resp) /\
               slots (state (fst (step w e))) = Axios.data resp.
Proof.
  destruct e as [[| i | |] | checked | [resp|err] | [resp|err]]; cbn.
  - destruct (isLoading _); cbn; auto.
  - destruct (nth_error _ i) as [slot|]; cbn; auto.
    destruct (String.eqb _ _); cbn; auto.
  - destruct (modalOpen _ && _); cbn; auto.
    unfold confirmBooking.
    destruct (selectedSlot _); cbn; auto.
    destruct (bookingConfirmed _); cbn; auto.
  - destruct (modalOpen _); cbn; auto.
  - destruct (modalOpen _); cbn; auto.
  - destruct (take _ _); cbn; eauto.
  - destruct (take _ _); cbn; auto.
  - destruct (take _ _); cbn; auto.
    destruct (Axios.status resp =? 200); cbn; auto.
  - destruct (take _ _); cbn; auto.
Qed.

Lemma confirmBooking_cells (st : State) :
  fst (confirmBooking st) = st \/ fst (confirmBooking st) = setIsLoading true st.
Proof.
  unfold confirmBooking. destruct (selectedSlot st); auto.
  destruct (bookingConfirmed st); auto.
Qed.

(** The three cells of the dialog change by the dialog's controls only. *)
Lemma step_dialog (w : World) (e : Event) :
  (selectedSlot (state (fst (step w e))) = selectedSlot (state w) /\
   (showBookingModal (state (fst (step w e))) = true ->
    showBookingModal (state w) = true) /\
   (bookingConfirmed (state (fst (step w e))) = true ->
    bookingConfirmed (state w) = true \/
    (e = ChangeConfirmCheckbox true /\ selectedSlot (state w) <> None))) \/
  (exists i slot,
     e = Click (BookNowButton i) /\
     nth_error (slots (state w)) i = Some slot /\
     Slot.status slot = "available" /\
     selectedSlot (state (fst (step w e))) = Some slot /\
     bookingConfirmed (state (fst (step w e))) = false).
Proof.
  destruct e as [[| i | |] | checked | [resp|err] | [resp|err]];
    [ | | unfold step, issue, onClick | | | | | | ]; cbn.
  - destruct (isLoading _); cbn; auto.
  - destruct (nth_error _ i) as [slot|] eqn:N; cbn; auto.
    destruct (String.eqb_spec (Slot.status slot) "available"); cbn; auto.
    right. exists i, slot. rewrite N. auto.
  - destruct (modalOpen _ && _); cbn; auto.
    destruct (confirmBooking_cells (state w)) as [E|E]; rewrite E; cbn; auto.
  - destruct (modalOpen _); cbn; auto.
    left. repeat split; auto. discriminate.
  - destruct (modalOpen (state w)) eqn:M; cbn; auto.
    left. repeat split; auto. intros ->. right. split; trivial.
    unfold modalOpen in M. apply andb_true_iff in M as [_ M].
    destruct (selectedSlot (state w)); [discriminate | discriminate M].
  - destruct (take _ _); cbn; auto.
  - destruct (take _ _); cbn; auto.
  - destruct (take _ _); cbn; auto.
    destruct (Axios.status resp =? 200); cbn; auto.
    left. repeat split; auto. discriminate.
  - destruct (take _ _); cbn; auto.
Qed.

(** What is cached and what is selected came from the server. *)
Lemma run_provenance (trace : list Event) :
  (forall slot, In slot (slots (state (fst (run mounted trace)))) ->
     exists resp, In (SlotsSettled (Axios.Fulfilled resp)) trace /\
                  In slot (Axios.data resp)) /\
  (forall slot, selectedSlot (state (fst (run mounted trace))) = Some slot ->
     Slot.status slot = "available" /\
     exists resp, In (SlotsSettled (Axios.Fulfilled resp)) trace /\
                  In slot (Axios.data resp)).
Proof.
  induction trace as [|e trace [IA IB]] using rev_ind.
  - split; [intros slot [] | discriminate].
  - rewrite appointments_run_snoc. cbn [fst].
    set (w := fst (run mounted trace)) in *.
    assert (K : forall slot,
      (exists resp, In (SlotsSettled (Axios.Fulfilled resp)) trace /\
                    In slot (Axios.data resp)) ->
      exists resp, In (SlotsSettled (Axios.Fulfilled resp)) (trace ++ [e]) /\
                   In slot (Axios.data resp)).
    { intros slot [resp [H1 H2]]. exists resp. split; trivial.
      apply in_or_app. now left. }
    split.
    + intros slot H.
      destruct (step_slots w e) as [E | [resp [-> E]]]; rewrite E in H.
      * auto.
      * exists resp. split; trivial. apply in_or_app. right. now left.
    + intros slot H.
      destruct (step_dialog w e) as [[E _] | [i [slot' [_ [N [A [S _]]]]]]].
      * rewrite E in H. destruct (IB slot H) as [A P]. auto.
      * rewrite S in H. injection H as <-. split; trivial.
        apply K, IA. eapply nth_error_In. exact N.
Qed.

(** X14.  Along any sequence of events from mount, a booking request
    names a slot that the server itself listed, with status [available],
    in an earlier answer to GET /appointments/available, and it goes out
    by the Confirm Booking button. *)
Theorem booking_names_a_listed_slot
  (before : list Event) (e : Event) (id : string) (c : bool) :
  In (PostAppointmentsBook id c)
     (requests (snd (step (fst (run mounted before)) e))) ->
  e = Click ConfirmBookingButton /\
  exists resp slot,
    In (SlotsSettled (Axios.Fulfilled resp)) before /\
    In slot (Axios.data resp) /\
    Slot.id slot = id /\ Slot.status slot = "available".
Proof.
  intros H.
  pose proof (step_books_only_confirmed _ _ _ _ H) as [-> _].
  split; trivial. cbn in H.
  destruct (modalOpen _ && _); [|destruct H].
  apply confirmBooking_requests in H as [_ [slot [S E]]].
  injection E as ->.
  destruct (proj2 (run_provenance before) slot S) as [A [resp [H1 H2]]].
  exists resp, slot. auto.
Qed.

Lemma booking_names_a_listed_slot_witness :
  In (PostAppointmentsBook "s1" true)
     (requests (snd (step (fst (run mounted (firstn 3 Sample.doubleBooking)))
                          (Click ConfirmBookingButton)))) /\
  exists resp slot,
    In (SlotsSettled (Axios.Fulfilled resp)) (firstn 3 Sample.doubleBooking) /\
    In slot (Axios.data resp) /\
    Slot.id slot = "s1" /\ Slot.status slot = "available".
Proof.
  split; [now left|].
  apply (booking_names_a_listed_slot (firstn 3 Sample.doubleBooking)
           (Click ConfirmBookingButton) "s1" true).
  now left.
Defined.

Lemma snoc_split {A : Type} (b b1 b2 : list A) (e x : A) :
  b ++ [e] = b1 ++ x :: b2 ->
  (b2 = [] /\ b1 = b /\ x = e) \/
  exists b2', b2 = b2' ++ [e] /\ b = b1 ++ x :: b2'.
Proof.
  intros H. destruct b2 as [|y b2] using rev_ind.
  - left. apply app_inj_tail in H as [-> ->]. auto.
  - right. clear IHb2. exists b2.
    change (b ++ [e] = b1 ++ (x :: b2) ++ [y]) in H.
    rewrite app_assoc in H. apply app_inj_tail in H as [-> ->]. auto.
Qed.

(** A click on a Book Now button that is not in the tree does nothing. *)
Lemma bookNow_not_rendered (w : World) (j : nat) :
  rendered (state w) (BookNowButton j) = false ->
  step w (Click (BookNowButton j)) = (w, []).
Proof.
  intros R. cbn [step]. now rewrite R.
Qed.

(** A click on one that is in the tree selects its slot and takes the
    tick away. *)
Lemma bookNow_rendered (w : World) (j : nat) :
  rendered (state w) (BookNowButton j) = true ->
  exists slot,
    nth_error (slots (state w)) j = Some slot /\
    selectedSlot (state (fst (step w (Click (BookNowButton j))))) = Some slot /\
    bookingConfirmed (state (fst (step w (Click (BookNowButton j))))) = false.
Proof.
  intros R. cbn [step]. rewrite R. cbn in R |- *.
  destruct (nth_error (slots (state w)) j) as [slot|]; [|discriminate].
  exists slot. auto.
Qed.

(** The selected slot was selected by a Book Now click that took effect,
    the last one that did; and if the box is ticked, it was ticked after
    that click. *)
Lemma run_selection (trace : list Event) (slot : Slot.t) :
  selectedSlot (state (fst (run mounted trace))) = Some slot ->
  exists a b i,
    trace = a ++ Click (BookNowButton i) :: b /\
    nth_error (slots (state (fst (run mounted a)))) i = Some slot /\
    (forall b1 j b2,
       b = b1 ++ Click (BookNowButton j) :: b2 ->
       rendered (state (fst (run mounted (a ++ Click (BookNowButton i) :: b1))))
         (BookNowButton j) = false) /\
    (bookingConfirmed (state (fst (run mounted trace))) = true ->
     In (ChangeConfirmCheckbox true) b).
Proof.
  revert slot. induction trace as [|e trace IH] using rev_ind; intros slot.
  - cbn. discriminate.
  - rewrite appointments_run_snoc. cbn [fst].
    set (w := fst (run mounted trace)) in *.
    assert (K : forall e',
      (forall j, e' <> Click (BookNowButton j) \/
                 rendered (state w) (BookNowButton j) = false) ->
      selectedSlot (state w) = Some slot ->
      (bookingConfirmed (state (fst (step w e'))) = true ->
       bookingConfirmed (state w) = true \/ e' = ChangeConfirmCheckbox true) ->
      exists a b i,
        trace ++ [e'] = a ++ Click (BookNowButton i) :: b /\
        nth_error (slots (state (fst (run mounted a)))) i = Some slot /\
        (forall b1 j b2,
           b = b1 ++ Click (BookNowButton j) :: b2 ->
           rendered (state (fst (run mounted (a ++ Click (BookNowButton i) :: b1))))
             (BookNowButton j) = false) /\
        (bookingConfirmed (state (fst (step w e'))) = true ->
         In (ChangeConfirmCheckbox true) b)).
    { intros e' N S C. destruct (IH slot S) as [a [b [i [E [T [L B]]]]]].
      exists a, (b ++ [e']), i. repeat split.
      - rewrite E. now rewrite <- app_assoc.
      - exact T.
      - intros b1 j b2 H. apply snoc_split in H as [[_ [<- H]] | [b2' [_ H]]].
        + destruct (N j) as [N' | N']; [now elim N'|].
          unfold w in N'. now rewrite E in N'.
        + now apply (L b1 j b2').
      - intros H. apply in_or_app.
        destruct (C H) as [H' | ->]; [left; auto | right; now left]. }
    destruct e as [[| j | |] | checked | r | r].
    + intros S. destruct (step_dialog w (Click RefreshButton))
        as [[E [_ C]] | [i [? [? _]]]]; [|discriminate].
      rewrite E in S. apply K; trivial.
      * intros j. left. discriminate.
      * intros H. destruct (C H) as [H' | [H' _]]; auto.
    + destruct (rendered (state w) (BookNowButton j)) eqn:R.
      * destruct (bookNow_rendered w j R) as [slot' [T [S' B']]].
        intros S. rewrite S' in S. injection S as <-.
        exists trace, [], j. repeat split; trivial.
        -- intros b1 j' b2 H. now destruct b1.
        -- rewrite B'. discriminate.
      * intros S. rewrite (bookNow_not_rendered w j R) in S. cbn [fst] in S.
        apply K; trivial.
        -- intros j'. destruct (Nat.eq_dec j' j) as [->|N]; [now right|].
           left. congruence.
        -- rewrite (bookNow_not_rendered w j R). cbn [fst]. auto.
    + intros S. destruct (step_dialog w (Click ConfirmBookingButton))
        as [[E [_ C]] | [i [? [? _]]]]; [|discriminate].
      rewrite E in S. apply K; trivial.
      * intros j. left. discriminate.
      * intros H. destruct (C H) as [H' | [H' _]]; auto.
    + intros S. destruct (step_dialog w (Click CancelButton))
        as [[E [_ C]] | [i [? [? _]]]]; [|discriminate].
      rewrite E in S. apply K; trivial.
      * intros j. left. discriminate.
      * intros H. destruct (C H) as [H' | [H' _]]; auto.
    + intros S. destruct (step_dialog w (ChangeConfirmCheckbox checked))
        as [[E [_ C]] | [i [? [? _]]]]; [|discriminate].
      rewrite E in S. apply K; trivial.
      * intros j. left. discriminate.
      * intros H. destruct (C H) as [H' | [H' _]]; auto.
    + intros S. destruct (step_dialog w (SlotsSettled r))
        as [[E [_ C]] | [i [? [? _]]]]; [|discriminate].
      rewrite E in S. apply K; trivial.
      * intros j. left. discriminate.
      * intros H. destruct (C H) as [H' | [H' _]]; auto.
    + intros S. destruct (step_dialog w (BookingSettled r))
        as [[E [_ C]] | [i [? [? _]]]]; [|discriminate].
      rewrite E in S. apply K; trivial.
      * intros j. left. discriminate.
      * intros H. destruct (C H) as [H' | [H' _]]; auto.
Qed.

(** X15.  Along any sequence of events from mount, a booking request for
    a slot is preceded by the click on Book Now that selected that slot,
    and by a tick of the confirmation box after that click, with no Book
    Now click taking effect in between.  A tick given for an earlier
    selection does not count: a Book Now click that takes effect takes the
    tick away. *)
Theorem booking_follows_book_now_and_tick
  (before : list Event) (e : Event) (id : string) (c : bool) :
  In (PostAppointmentsBook id c)
     (requests (snd (step (fst (run mounted before)) e))) ->
  exists a b i slot,
    before = a ++ Click (BookNowButton i) :: b /\
    nth_error (slots (state (fst (run mounted a)))) i = Some slot /\
    Slot.id slot = id /\
    In (ChangeConfirmCheckbox true) b /\
    (forall b1 j b2,
       b = b1 ++ Click (BookNowButton j) :: b2 ->
       rendered (state (fst (run mounted (a ++ Click (BookNowButton i) :: b1))))
         (BookNowButton j) = false).
Proof.
  intros H.
  pose proof (step_books_only_confirmed _ _ _ _ H) as [-> [B _]].
  cbn in H. destruct (modalOpen _ && _); [|destruct H].
  apply confirmBooking_requests in H as [_ [slot [S E]]].
  injection E as ->.
  destruct (run_selection before slot S) as [a [b [i [E [T [L T']]]]]].
  exists a, b, i, slot. repeat split; auto.
Qed.

Lemma booking_follows_book_now_and_tick_witness :
  In (PostAppointmentsBook "s1" true)
     (requests (snd (step (fst (run mounted (firstn 3 Sample.doubleBooking)))
                          (Click ConfirmBookingButton)))) /\
  exists a b i slot,
    firstn 3 Sample.doubleBooking = a ++ Click (BookNowButton i) :: b /\
    nth_error (slots (state (fst (run mounted a)))) i = Some slot /\
    Slot.id slot = "s1" /\
    In (ChangeConfirmCheckbox true) b /\
    (forall b1 j b2,
       b = b1 ++ Click (BookNowButton j) :: b2 ->
       rendered (state (fst (run mounted (a ++ Click (BookNowButton i) :: b1))))
         (BookNowButton j) = false).
Proof.
  split; [now left|].
  apply (booking_follows_book_now_and_tick (firstn 3 Sample.doubleBooking)
           (Click ConfirmBookingButton) "s1" true).
  now left.
Defined.

(** On a stale tick nothing leaves: Book Now on the first slot, a tick,
    Book Now on the second slot, and a click on Confirm Booking sends no
    request. *)
Example stale_tick_books_nothing :
  snd (step (fst (run mounted
                    [ SlotsSettled (Sample.ok [Sample.slot1; Sample.slot2]);
                      Click (BookNowButton 0); ChangeConfirmCheckbox true;
                      Click (BookNowButton 1) ]))
            (Click ConfirmBookingButton)) = [].
Proof. reflexivity. Qed.

Lemma step_dialog_closed (w : World) (e : Event) :
  modalOpen (state w) = false ->
  (forall i, e <> Click (BookNowButton i)) ->
  modalOpen (state (fst (step w e))) = false /\
  forall id c, ~ In (PostAppointmentsBook id c) (requests (snd (step w e))).
Proof.
  intros M N. split.
  - destruct (step_dialog w e) as [[E [S _]] | [i [_ [-> _]]]]; [|now elim (N i)].
    unfold modalOpen in *. rewrite E.
    destruct (showBookingModal (state (fst (step w e)))); cbn; trivial.
    now rewrite (S eq_refl) in M.
  - intros id c H. pose proof (step_books_only_confirmed _ _ _ _ H) as [-> _].
    cbn in H. rewrite M in H. destruct H.
Qed.

Lemma run_dialog_closed (trace : list Event) (w : World) :
  modalOpen (state w) = false ->
  Forall (fun e => forall i, e <> Click (BookNowButton i)) trace ->
  forall id c, ~ In (PostAppointmentsBook id c) (requests (snd (run w trace))).
Proof.
  revert w. induction trace as [|e trace IH]; intros w M F id c; cbn [run].
  - intros [].
  - inversion F as [|? ? N F']; subst.
    destruct (step_dialog_closed w e M N) as [M' P].
    destruct (step w e) as [w1 fx1] eqn:E1. cbn [fst snd] in *.
    specialize (IH w1 M' F' id c).
    destruct (run w1 trace) as [w2 fx2]. cbn [snd] in *.
    rewrite requests_app. intros H. apply in_app_or in H as [H|H].
    + exact (P id c H).
    + exact (IH H).
Qed.

(** X16.  Cancel cancels.  After a click on Cancel the dialog is closed
    and nothing was sent; and from then on, whatever is clicked, ticked or
    answered, no booking request goes out until Book Now is clicked
    again. *)
Theorem cancel_blocks_booking (w : World) (trace : list Event) :
  Forall (fun e => forall i, e <> Click (BookNowButton i)) trace ->
  snd (step w (Click CancelButton)) = [] /\
  modalOpen (state (fst (step w (Click CancelButton)))) = false /\
  forall id c,
    ~ In (PostAppointmentsBook id c)
        (requests (snd (run (fst (step w (Click CancelButton))) trace))).
Proof.
  intros F.
  assert (M : modalOpen (state (fst (step w (Click CancelButton)))) = false).
  { cbn. destruct (modalOpen (state w)) eqn:M; cbn; trivial. }
  repeat split; trivial.
  - cbn. now destruct (modalOpen (state w)).
  - now apply run_dialog_closed.
Qed.

Lemma cancel_blocks_booking_witness :
  Forall (fun e => forall i, e <> Click (BookNowButton i))
    [ChangeConfirmCheckbox true; Click ConfirmBookingButton] /\
  snd (step (fst (run mounted (firstn 3 Sample.doubleBooking))) (Click CancelButton))
  = [].
Proof.
  split.
  - repeat constructor; discriminate.
  - apply (cancel_blocks_booking
             (fst (run mounted (firstn 3 Sample.doubleBooking)))
             [ChangeConfirmCheckbox true; Click ConfirmBookingButton]).
    repeat constructor; discriminate.
Defined.

End AppointmentFacts.

(** ** The log page *)

Section LogFacts.

Import SystemLogs.

Lemma filter_all {A : Type} (p : A -> bool) (l : list A) :
  (forall x, p x = true) -> filter p l = l.
Proof.
  intros H. induction l as [|x l IH]; cbn; trivial.
  now rewrite H, IH.
Qed.

Lemma filter_narrow {A : Type} (p q : A -> bool) (l : list A) :
  (forall x, q x = true -> p x = true) ->
  filter q l = filter q (filter p l).
Proof.
  intros H. induction l as [|x l IH]; cbn; trivial.
  destruct (q x) eqn:Q.
  - rewrite (H x Q). cbn. now rewrite Q, IH.
  - destruct (p x); cbn; [now rewrite Q|]; exact IH.
Qed.

(** X17.  With the search box empty the view is the whole stored list, in
    its order (for a lower-casing that maps the empty string to itself). *)
Theorem empty_search_shows_all (toLowerCase : string -> string) (st : State) :
  toLowerCase "" = "" ->
  filteredLogs toLowerCase (setSearchTerm "" st) = logs st.
Proof.
  intros H0. unfold filteredLogs. cbn. apply filter_all.
  intros log. unfold matchesSearch. now rewrite H0, includes_empty.
Qed.

Lemma empty_search_shows_all_witness :
  Str.asciiToLowerCase "" = "" /\
  filteredLogs Str.asciiToLowerCase (setSearchTerm "" Sample.searchSample)
  = logs Sample.searchSample.
Proof.
  split; [reflexivity|].
  apply (empty_search_shows_all Str.asciiToLowerCase Sample.searchSample).
  reflexivity.
Defined.

Lemma occursIn_trans (a b c : string) :
  occursIn a b -> occursIn b c -> occursIn a c.
Proof.
  intros [p1 [q1 ->]] [p2 [q2 ->]].
  exists (p2 ++ p1)%string, (q1 ++ q2)%string.
  induction p2 as [|x p2 IH]; cbn.
  - induction p1 as [|y p1 IH1]; cbn.
    + induction a as [|z a IHa]; cbn; trivial. now rewrite IHa.
    + now rewrite IH1.
  - now rewrite IH.
Qed.

Lemma matchesSearch_narrow (toLowerCase : string -> string)
  (term term' : string) (log : LogEntry.t) :
  occursIn (toLowerCase term) (toLowerCase term') ->
  matchesSearch toLowerCase term' log = true ->
  matchesSearch toLowerCase term log = true.
Proof.
  intros O. unfold matchesSearch. rewrite !orb_true_iff.
  intros [H | H].
  - left. apply includes_spec in H. apply includes_spec.
    eapply occursIn_trans; eauto.
  - right. destruct (LogEntry.step log) as [step|]; [|discriminate].
    apply andb_true_iff in H as [T H]. rewrite T. cbn.
    apply includes_spec in H. apply includes_spec.
    eapply occursIn_trans; eauto.
Qed.

(** X18.  For a term written in ASCII, where the lower-casing of the
    browser is that of the letters A to Z: typing further ASCII
    characters, before or after what is in the search box, only narrows
    the view.  The view for the longer term is the view for the shorter
    one filtered once more, so no entry comes back that the shorter term
    had left out.  The entries themselves may hold any text. *)
Theorem longer_search_narrows
  (toLowerCase : string -> string) (st : State) (front term back : string) :
  lowersAscii toLowerCase ->
  Js.isAscii front = true -> Js.isAscii term = true -> Js.isAscii back = true ->
  filteredLogs toLowerCase (setSearchTerm (front ++ term ++ back) st)
  = filter (matchesSearch toLowerCase (front ++ term ++ back))
      (filteredLogs toLowerCase (setSearchTerm term st)).
Proof.
  intros HL Hf Ht Hb.
  unfold filteredLogs. cbn. apply filter_narrow.
  intros log. apply matchesSearch_narrow.
  rewrite (HL term Ht), (HL (front ++ term ++ back)%string)
    by now rewrite !isAscii_app, Hf, Ht, Hb.
  rewrite !asciiToLowerCase_app.
  now exists (Str.asciiToLowerCase front), (Str.asciiToLowerCase back).
Qed.

Lemma longer_search_narrows_witness :
  lowersAscii Js.toLowerCase /\
  Js.isAscii "Cap" = true /\ Js.isAscii "tch" = true /\ Js.isAscii "a f" = true /\
  filteredLogs Js.toLowerCase (setSearchTerm "Captcha f" Sample.searchSample)
  = filter (matchesSearch Js.toLowerCase "Captcha f")
      (filteredLogs Js.toLowerCase (setSearchTerm "tch" Sample.searchSample)).
Proof.
  split; [exact Js_toLowerCase_ascii|]. repeat (split; [reflexivity|]).
  exact (longer_search_narrows Js.toLowerCase Sample.searchSample "Cap" "tch" "a f"
           Js_toLowerCase_ascii eq_refl eq_refl eq_refl).
Defined.

(** X19.  For terms written in ASCII, where the lower-casing of the
    browser is that of the letters A to Z, the case of the term does not
    matter: two terms that are the same up to the case of their letters
    give the same view, whatever the entries hold. *)
Theorem search_ignores_case_of_term
  (toLowerCase : string -> string) (st : State) (term term' : string) :
  lowersAscii toLowerCase ->
  Js.isAscii term = true -> Js.isAscii term' = true ->
  equalIgnoringCase term term' ->
  filteredLogs toLowerCase (setSearchTerm term st)
  = filteredLogs toLowerCase (setSearchTerm term' st).
Proof.
  intros HL Ht Ht' E. apply equalIgnoringCase_iff in E.
  unfold filteredLogs, matchesSearch. cbn.
  now rewrite (HL term Ht), (HL term' Ht'), E.
Qed.

Lemma search_ignores_case_of_term_witness :
  lowersAscii Js.toLowerCase /\
  Js.isAscii "STEP3" = true /\ Js.isAscii "Step3" = true /\
  equalIgnoringCase "STEP3" "Step3" /\
  filteredLogs Js.toLowerCase (setSearchTerm "STEP3" Sample.searchSample)
  = filteredLogs Js.toLowerCase (setSearchTerm "Step3" Sample.searchSample).
Proof.
  assert (E : equalIgnoringCase "STEP3" "Step3").
  { repeat constructor; right; reflexivity. }
  split; [exact Js_toLowerCase_ascii|]. repeat (split; [reflexivity|]).
  split; [exact E|].
  exact (search_ignores_case_of_term Js.toLowerCase Sample.searchSample
           "STEP3" "Step3" Js_toLowerCase_ascii eq_refl eq_refl E).
Defined.

(** X20.  The counts of the level menu are taken on the stored list, not
    on the searched view.  The four counts by level add up to no more than
    the count of All Levels, and to exactly that when every entry has one
    of the four levels. *)
Theorem level_counts_add_up (st : State) :
  (levelCount st "all" = List.length (logs st)) /\
  (levelCount st "success" + levelCount st "error"
   + levelCount st "warning" + levelCount st "info" <= levelCount st "all")%nat /\
  (Forall (fun l => In (LogEntry.level l) ["success"; "error"; "warning"; "info"])
     (logs st) ->
   (levelCount st "success" + levelCount st "error"
    + levelCount st "warning" + levelCount st "info" = levelCount st "all")%nat).
Proof.
  unfold levelCount. cbn [String.eqb Ascii.eqb Bool.eqb].
  split; [reflexivity|].
  induction (logs st) as [|x l [IH1 IH2]]; cbn [filter List.length].
  - split; [lia | intros _; reflexivity].
  - destruct (String.eqb_spec (LogEntry.level x) "success") as [E1|N1];
    destruct (String.eqb_spec (LogEntry.level x) "error") as [E2|N2];
    destruct (String.eqb_spec (LogEntry.level x) "warning") as [E3|N3];
    destruct (String.eqb_spec (LogEntry.level x) "info") as [E4|N4];
    try congruence; cbn [List.length]; (split; [lia|]);
    intros F; inversion F as [|? ? Hx F']; subst;
    try (specialize (IH2 F'); lia).
    cbn in Hx. intuition congruence.
Qed.

Lemma level_counts_add_up_witness :
  Forall (fun l => In (LogEntry.level l) ["success"; "error"; "warning"; "info"])
    (logs Sample.searchSample) /\
  (levelCount Sample.searchSample "success" + levelCount Sample.searchSample "error"
   + levelCount Sample.searchSample "warning" + levelCount Sample.searchSample "info"
   = levelCount Sample.searchSample "all")%nat.
Proof.
  assert (F : Forall (fun l => In (LogEntry.level l)
                                 ["success"; "error"; "warning"; "info"])
                (logs Sample.searchSample)).
  { cbn. repeat (apply Forall_cons || apply Forall_nil); cbn; auto 6. }
  split; [exact F|].
  exact (proj2 (proj2 (level_counts_add_up Sample.searchSample)) F).
Defined.

(** X21.  The log page sends one kind of request, GET /logs with limit
    100, and only on Refresh or on a change of the level.  The request
    carries the level that is selected once the event is handled, and no
    level when that is [all]. *)
Theorem log_page_requests (w : World) (e : Event) (r : Request) :
  In r (requests (snd (step w e))) ->
  r = GetLogs 100
        (if String.eqb (selectedLevel (state (fst (step w e)))) "all" then None
         else Some (selectedLevel (state (fst (step w e))))) /\
  (e = ClickRefresh \/
   exists value, e = SelectLevel value /\
                 selectedLevel (state (fst (step w e))) = value).
Proof.
  destruct e as [[|[]] | v | v | b | | b | r0]; cbn [step].
  - destruct (websocket w); cbn; intros [].
  - destruct (websocket w); cbn; [|intros []].
    destruct (autoScroll (state w)); cbn; intros [].
  - destruct (websocket w); cbn; intros [].
  - destruct (websocket w); cbn; intros [].
  - destruct (websocket w); cbn; intros [].
  - destruct (String.eqb v (selectedLevel (state w))); cbn; [intros []|].
    intros [<-|[]]. split; eauto.
    now destruct (String.eqb v "all").
  - cbn. intros [].
  - cbn. intros [].
  - destruct (isLoading (state w)); cbn; [intros []|].
    intros [<-|[]]. split; auto.
    now destruct (String.eqb (selectedLevel (state w)) "all").
  - destruct b; cbn; intros [].
  - destruct (pending w); cbn; [intros []|].
    destruct r0; cbn; intros [].
Qed.

Lemma log_page_requests_witness :
  In (GetLogs 100 (Some "error"))
     (requests (snd (step (mounted true) (SelectLevel "error")))) /\
  GetLogs 100 (Some "error")
  = GetLogs 100
      (if String.eqb
            (selectedLevel (state (fst (step (mounted true) (SelectLevel "error")))))
            "all"
       then None
       else Some (selectedLevel
                    (state (fst (step (mounted true) (SelectLevel "error")))))).
Proof.
  split; [now left|].
  apply (log_page_requests (mounted true) (SelectLevel "error")
           (GetLogs 100 (Some "error"))).
  now left.
Defined.

End LogFacts.

(** ** The header *)

(** X22.  The status icon and the status colour of the header go
    together: both are the neutral ones (white dot, grey text) exactly
    for a status that is none of [running], [paused] and [error], so for
    [stopped] and for any status the client does not know. *)
Theorem header_icon_and_colour_agree (status : string) :
  (Header.getStatusIcon status = "⚪" <->
   Header.getStatusColor status = "text-gray-500") /\
  (Header.getStatusIcon status = "⚪" <->
   ~ In status ["running"; "paused"; "error"]).
Proof.
  unfold Header.getStatusIcon, Header.getStatusColor.
  destruct (String.eqb_spec status "running") as [->|N1]; cbn.
  { split; split; try discriminate. intros H. elim H. auto. }
  destruct (String.eqb_spec status "paused") as [->|N2]; cbn.
  { split; split; try discriminate. intros H. elim H. auto. }
  destruct (String.eqb_spec status "error") as [->|N3]; cbn.
  { split; split; try discriminate. intros H. elim H. auto. }
  split; split; trivial. intros _ H. intuition congruence.
Qed.

(** ** The text of an error *)

(** X23.  What the user reads when start, stop, the test check of the
    control panel or a booking is rejected: after the prefix of the
    operation, the server's [detail] when the answer has one that is not
    empty; the message of axios when there was no answer, when the answer
    has no detail, or when the detail is the empty string. *)
Theorem error_alert_text
  (error : Axios.Error) (c : SystemControls.State) (a : AppointmentSlots.State)
  (text : string) :
  (Axios.response_data_detail error = Some text /\ text <> "") \/
  ((Axios.response_data_detail error = None \/
    Axios.response_data_detail error = Some "") /\ text = Axios.message error) ->
  In (Alert ("Failed to start system: " ++ text))
     (snd (SystemControls.startSystem_settled c (Axios.Rejected error))) /\
  In (Alert ("Failed to stop system: " ++ text))
     (snd (SystemControls.stopSystem_settled c (Axios.Rejected error))) /\
  In (Alert ("❌ Test check failed: " ++ text))
     (snd (SystemControls.runTestCheck_settled c (Axios.Rejected error))) /\
  In (Alert ("❌ Booking failed: " ++ text))
     (snd (AppointmentSlots.confirmBooking_settled a (Axios.Rejected error))).
Proof.
  intros H.
  assert (E : Axios.detail_or_message error = text).
  { destruct (detail_or_message_spec error) as [S1 [S2 S3]].
    destruct H as [[D N] | [[D | D] ->]]; auto. }
  destruct (uniform_error_alerts error c a) as [U1 [U2 [U3 U4]]].
  rewrite U1, U2, U3, U4, E.
  repeat split; right; left; reflexivity.
Qed.

Lemma error_alert_text_witness :
  ((Axios.response_data_detail Sample.networkError = None \/
    Axios.response_data_detail Sample.networkError = Some "") /\
   "Network Error" = Axios.message Sample.networkError) /\
  In (Alert "Failed to start system: Network Error")
     (snd (SystemControls.startSystem_settled SystemControls.initial
             (Axios.Rejected Sample.networkError))).
Proof.
  assert (H : (Axios.response_data_detail Sample.networkError = None \/
               Axios.response_data_detail Sample.networkError = Some "") /\
              "Network Error" = Axios.message Sample.networkError)
    by (split; [left|]; reflexivity).
  split; [exact H|].
  apply (error_alert_text Sample.networkError SystemControls.initial
           AppointmentSlots.initial "Network Error" (or_intror H)).
Defined.

(** ** The status between writes *)

(** X24.  As long as no status request is answered and no
    [system_status] message arrives, the status App holds is the one it
    was created with, whatever else happens: socket events, other
    messages, text that does not parse, failed status requests, interval
    ticks. *)
Theorem status_stays_without_write (trace : list App.Event) :
  Forall (fun e =>
            (forall p, e <> App.WsMessage (Ws.Json (Ws.SystemStatus p))) /\
            (forall resp, e <> App.StatusSettled (Axios.Fulfilled resp)))
         trace ->
  App.systemStatus (App.state (fst (App.run App.mounted trace)))
  = App.systemStatus App.initial.
Proof.
  induction trace as [|e trace IH] using rev_ind; intros F.
  - reflexivity.
  - apply Forall_app in F as [F1 F2]. inversion F2 as [|? ? [W1 W2] _]; subst.
    rewrite App_run_snoc.
    destruct (App_step_status (fst (App.run App.mounted trace)) e)
      as [E | [p [_ [E | [code E]]]]].
    + rewrite E. auto.
    + now elim (W1 p).
    + now elim (W2 (Axios.mkResponse code p)).
Qed.

Lemma status_stays_without_write_witness :
  Forall (fun e =>
            (forall p, e <> App.WsMessage (Ws.Json (Ws.SystemStatus p))) /\
            (forall resp, e <> App.StatusSettled (Axios.Fulfilled resp)))
         [App.WsOpen; App.WsMessage Ws.Unparsable;
          App.StatusSettled (Axios.Rejected Sample.networkError); App.WsError] /\
  App.systemStatus (App.state (fst (App.run App.mounted
    [App.WsOpen; App.WsMessage Ws.Unparsable;
     App.StatusSettled (Axios.Rejected Sample.networkError); App.WsError])))
  = App.systemStatus App.initial.
Proof.
  assert (F : Forall (fun e =>
            (forall p, e <> App.WsMessage (Ws.Json (Ws.SystemStatus p))) /\
            (forall resp, e <> App.StatusSettled (Axios.Fulfilled resp)))
         [App.WsOpen; App.WsMessage Ws.Unparsable;
          App.StatusSettled (Axios.Rejected Sample.networkError); App.WsError])
    by (repeat (apply Forall_cons || apply Forall_nil); split; discriminate).
  split; [exact F|].
  exact (status_stays_without_write _ F).
Defined.

(** ** The flag of the appointments page *)

Section AppointmentFlag.

Import AppointmentSlots.

Lemma appointments_step_flag (w : World) (e : Event) :
  (isLoading (state w) = true -> pending w <> []) ->
  isLoading (state (fst (step w e))) = true -> pending (fst (step w e)) <> [].
Proof.
  intros I.
  destruct e as [[| i | |] | checked | [resp|err] | [resp|err]];
    [ | | unfold step, issue, onClick | | | | | | ]; cbn.
  - destruct (isLoading (state w)) eqn:B; cbn; auto.
    intros _ H. now apply app_eq_nil in H as [_ H].
  - destruct (nth_error _ i) as [slot|]; cbn; auto.
    destruct (String.eqb _ _); cbn; auto.
    now rewrite app_nil_r.
  - destruct (modalOpen _ && _); cbn; auto.
    unfold confirmBooking.
    destruct (selectedSlot (state w)); cbn; [|now rewrite app_nil_r].
    destruct (bookingConfirmed (state w)); cbn; [|now rewrite app_nil_r].
    intros _ H. now apply app_eq_nil in H as [_ H].
  - destruct (modalOpen _); cbn; auto. now rewrite app_nil_r.
  - destruct (modalOpen _); cbn; auto. now rewrite app_nil_r.
  - destruct (take _ _); cbn; auto. discriminate.
  - destruct (take _ _); cbn; auto. discriminate.
  - destruct (take _ _); cbn; auto.
    destruct (Axios.status resp =? 200); cbn; discriminate.
  - destruct (take _ _); cbn; auto. discriminate.
Qed.

(** X25.  On the appointments page, from mount and along any sequence of
    events, the flag is up only while some request of the page is out: the
    Refreshing and Booking labels cannot stay on with nothing to wait
    for. *)
Theorem appointments_flag_has_request (trace : list Event) :
  isLoading (state (fst (run mounted trace))) = true ->
  pending (fst (run mounted trace)) <> [].
Proof.
  induction trace as [|e trace IH] using rev_ind.
  - cbn. discriminate.
  - rewrite appointments_run_snoc. cbn [fst].
    now apply appointments_step_flag.
Qed.

Lemma appointments_flag_has_request_witness :
  isLoading (state (fst (run mounted (firstn 4 Sample.doubleBooking)))) = true /\
  pending (fst (run mounted (firstn 4 Sample.doubleBooking))) <> [].
Proof.
  split; [reflexivity|].
  apply (appointments_flag_has_request (firstn 4 Sample.doubleBooking)).
  reflexivity.
Defined.

End AppointmentFlag.
